(** * pynwb: NWBFile container (pynwb/file.py) and HDF5 rendering (pynwb/io/write.py)

    A shallow embedding of the two modules.  Python dictionaries of
    [NWBFile] are finite maps, objects that the file mutates through a
    reference (epochs, the [parent] attribute) live in an explicit heap, and
    every method is a computation in a small state-and-exception monad: a
    mutation made before a [raise] stays in the state, as in Python.

    write.py is modelled as it is written.  A call that the classes of the
    two modules cannot answer is the exception Python raises for it: the
    predicate [is_rawdata] on an [NWBFile], which defines [is_raw_data];
    [TimeFinder()] without its argument; [tf.add_interval].

    write.py evaluates global names that it does not bind: the Builder
    classes ([GroupBuilder], spelled [GroupBulder] once), [_posixpath],
    [h5py] (imported as [_h5py]), [HDFContainerRenderer] in the [super]
    call of [process], [EpochHdf5Renderer], [np], [time], and the
    module-level names [unit], [conversion], [resolution],
    [_default_conversion], [_default_resolution], [FILE_VERSION_STR] and
    [_ts_locations]; the bare call [__relative_location(...)] inside the
    class is the global name [_Hdf5ContainerRenderer__relative_location].
    Evaluating such a name is [NameError].  The definitions that take the
    bound names as a parameter [names] ([process],
    [get_container_location_in], [nwb_file_in], [write_links_in]) look
    each name up where the source evaluates it; with [write_globals], the
    names write.py binds, they are the module as it is.  The other
    definitions of write.py are the bodies past these lookups, each
    unbound name standing for what it evidently names (modelled from the
    specification, or taken as a parameter): where such a body raises, the
    module as it is raises there or has raised at a lookup before. *)

From Stdlib Require Import Ascii String ZArith QArith Lia.
From stdpp Require Import base option list gmap strings sorting.

Set Warnings "-register-all".

Set Default Proof Using "Type".
Close Scope Q_scope.
Local Open Scope string_scope.
Local Open Scope list_scope.

(** ** Python results and the state-and-exception monad *)

Module Py.

Inductive exn : Type :=
| KeyError (msg : string)
| TypeError (msg : string)
| AttributeError (msg : string)
| IndexError (msg : string)
| UnboundLocalError (msg : string)
| DuplicateNameError (msg : string)
| NameError (msg : string)
| Exception (msg : string).

Inductive result (A : Type) : Type :=
| Ok (a : A)
| Raise (e : exn).
Arguments Ok {A} a.
Arguments Raise {A} e.

Definition is_ok {A} (r : result A) : bool :=
  match r with Ok _ => true | Raise _ => false end.

Definition rbind {A B} (r : result A) (k : A -> result B) : result B :=
  match r with Ok a => k a | Raise e => Raise e end.

(** [M S A]: a method body running on a state [S]. *)
Definition M (S A : Type) : Type := S -> S * result A.

Definition ret {S A} (a : A) : M S A := fun s => (s, Ok a).
Definition raise {S A} (e : exn) : M S A := fun s => (s, Raise e).
Definition bind {S A B} (m : M S A) (k : A -> M S B) : M S B :=
  fun s => match m s with
           | (s', Ok a) => k a s'
           | (s', Raise e) => (s', Raise e)
           end.
Definition get {S} : M S S := fun s => (s, Ok s).
Definition modify {S} (f : S -> S) : M S unit := fun s => (f s, Ok tt).

(** [for x in l: body x] *)
Fixpoint for_each {S A} (l : list A) (body : A -> M S unit) : M S unit :=
  match l with
  | [] => ret tt
  | x :: l' => bind (body x) (fun _ => for_each l' body)
  end.

(** [[f x for x in l]] *)
Fixpoint comprehension {S A B} (l : list A) (f : A -> M S B) : M S (list B) :=
  match l with
  | [] => ret []
  | x :: l' => bind (f x) (fun y => bind (comprehension l' f) (fun ys => ret (y :: ys)))
  end.

End Py.

Import Py.

Declare Scope py_scope.
Delimit Scope py_scope with py.
Notation "x <- m ;; k" := (Py.bind m (fun x => k))
  (at level 100, m at next level, right associativity) : py_scope.
Notation "m ;;; k" := (Py.bind m (fun _ => k))
  (at level 100, right associativity) : py_scope.

(** ** pynwb/file.py: class NWBFile *)

Module NWB.

Local Open Scope py_scope.

(** Identity of a Python object (what [id(obj)] distinguishes). *)
Definition obj_id := nat.

(** A dictionary key that is a [str] or an [int]: docval lets an electrode
    group be named by either. *)
Definition pyname : Type := string + Z.

(** The attributes of a [TimeSeries] that [NWBFile] reads. *)
Record TimeSeries : Type := mkTimeSeries {
  ts_id : obj_id;
  ts_name : string
}.

Record ElectrodeGroup : Type := mkElectrodeGroup {
  eg_id : obj_id;
  eg_name : pyname;
  eg_coord : list Q;
  eg_desc : string;
  eg_dev : string;
  eg_loc : string;
  eg_imp : Q + Q * Q
}.

Record Module_ : Type := mkModule {
  mod_id : obj_id;
  mod_name : string;
  mod_description : string
}.

(** One entry of an epoch's series mapping: the referenced series and the
    interval-membership record, [None] until it is computed. *)
Record EpochTimeSeries : Type := mkEpochTimeSeries {
  timeseries : TimeSeries;
  count : option Z;
  idx_start : option Z
}.

Record Epoch : Type := mkEpoch {
  ep_name : string;
  start_time : Q;
  stop_time : Q;
  ep_tags : list string;
  ep_description : option string;
  ep_timeseries : list (string * EpochTimeSeries)
}.

(** The instance attributes set by [NWBFile.__init__], and the part of the
    object heap its methods write: [obj.parent] of the objects attached to
    the file, and the [Epoch] objects (an epoch is reached both by name
    through [epochs] and directly through a reference held by the caller). *)
Record NWBFile : Type := mkNWBFile {
  self_id : obj_id;
  filename : string;
  session_start : Z;
  session_description : string;
  raw_data : gmap string TimeSeries;
  stimulus : gmap string TimeSeries;
  stimulus_template : gmap string TimeSeries;
  modules : gmap string Module_;
  epochs : gmap string obj_id;
  ec_electrodes : gmap pyname ElectrodeGroup;
  ec_electrode_idx : gmap pyname nat;
  heap_parent : gmap obj_id obj_id;
  heap_epoch : gmap obj_id Epoch;
  next_id : obj_id
}.

(** [__init__]: every collection starts as [dict()].  [now] is the reading
    of [datetime.utcnow()]. *)
Definition init (self : obj_id) (file_name description : string) (now : Z) : NWBFile :=
  {| self_id := self;
     filename := file_name;
     session_start := now;
     session_description := description;
     raw_data := ∅;
     stimulus := ∅;
     stimulus_template := ∅;
     modules := ∅;
     epochs := ∅;
     ec_electrodes := ∅;
     ec_electrode_idx := ∅;
     heap_parent := ∅;
     heap_epoch := ∅;
     next_id := S self |}.

(** The three dictionaries [__set_timeseries] and [__exists] are handed. *)
Inductive ts_dict : Type := RawData | Stimulus | StimulusTemplate.

#[global] Instance ts_dict_eq_dec : EqDecision ts_dict.
Proof. solve_decision. Defined.

Definition get_dict (d : ts_dict) (f : NWBFile) : gmap string TimeSeries :=
  match d with
  | RawData => raw_data f
  | Stimulus => stimulus f
  | StimulusTemplate => stimulus_template f
  end.

Definition set_raw_data (m : gmap string TimeSeries) (f : NWBFile) : NWBFile :=
  mkNWBFile (self_id f) (filename f) (session_start f) (session_description f)
    m (stimulus f) (stimulus_template f) (modules f) (epochs f)
    (ec_electrodes f) (ec_electrode_idx f) (heap_parent f) (heap_epoch f) (next_id f).

Definition set_stimulus (m : gmap string TimeSeries) (f : NWBFile) : NWBFile :=
  mkNWBFile (self_id f) (filename f) (session_start f) (session_description f)
    (raw_data f) m (stimulus_template f) (modules f) (epochs f)
    (ec_electrodes f) (ec_electrode_idx f) (heap_parent f) (heap_epoch f) (next_id f).

Definition set_stimulus_template (m : gmap string TimeSeries) (f : NWBFile) : NWBFile :=
  mkNWBFile (self_id f) (filename f) (session_start f) (session_description f)
    (raw_data f) (stimulus f) m (modules f) (epochs f)
    (ec_electrodes f) (ec_electrode_idx f) (heap_parent f) (heap_epoch f) (next_id f).

Definition set_dict (d : ts_dict) (m : gmap string TimeSeries) (f : NWBFile) : NWBFile :=
  match d with
  | RawData => set_raw_data m f
  | Stimulus => set_stimulus m f
  | StimulusTemplate => set_stimulus_template m f
  end.

Definition set_modules (m : gmap string Module_) (f : NWBFile) : NWBFile :=
  mkNWBFile (self_id f) (filename f) (session_start f) (session_description f)
    (raw_data f) (stimulus f) (stimulus_template f) m (epochs f)
    (ec_electrodes f) (ec_electrode_idx f) (heap_parent f) (heap_epoch f) (next_id f).

Definition set_epochs (m : gmap string obj_id) (f : NWBFile) : NWBFile :=
  mkNWBFile (self_id f) (filename f) (session_start f) (session_description f)
    (raw_data f) (stimulus f) (stimulus_template f) (modules f) m
    (ec_electrodes f) (ec_electrode_idx f) (heap_parent f) (heap_epoch f) (next_id f).

Definition set_ec_electrodes (m : gmap pyname ElectrodeGroup) (f : NWBFile) : NWBFile :=
  mkNWBFile (self_id f) (filename f) (session_start f) (session_description f)
    (raw_data f) (stimulus f) (stimulus_template f) (modules f) (epochs f)
    m (ec_electrode_idx f) (heap_parent f) (heap_epoch f) (next_id f).

Definition set_ec_electrode_idx (m : gmap pyname nat) (f : NWBFile) : NWBFile :=
  mkNWBFile (self_id f) (filename f) (session_start f) (session_description f)
    (raw_data f) (stimulus f) (stimulus_template f) (modules f) (epochs f)
    (ec_electrodes f) m (heap_parent f) (heap_epoch f) (next_id f).

Definition set_heap_parent (m : gmap obj_id obj_id) (f : NWBFile) : NWBFile :=
  mkNWBFile (self_id f) (filename f) (session_start f) (session_description f)
    (raw_data f) (stimulus f) (stimulus_template f) (modules f) (epochs f)
    (ec_electrodes f) (ec_electrode_idx f) m (heap_epoch f) (next_id f).

Definition set_heap_epoch (m : gmap obj_id Epoch) (f : NWBFile) : NWBFile :=
  mkNWBFile (self_id f) (filename f) (session_start f) (session_description f)
    (raw_data f) (stimulus f) (stimulus_template f) (modules f) (epochs f)
    (ec_electrodes f) (ec_electrode_idx f) (heap_parent f) m (next_id f).

Definition set_next_id (n : obj_id) (f : NWBFile) : NWBFile :=
  mkNWBFile (self_id f) (filename f) (session_start f) (session_description f)
    (raw_data f) (stimulus f) (stimulus_template f) (modules f) (epochs f)
    (ec_electrodes f) (ec_electrode_idx f) (heap_parent f) (heap_epoch f) n.

(** [obj.parent = self] *)
Definition set_parent (o : obj_id) : M NWBFile unit :=
  modify (fun f => set_heap_parent (<[o := self_id f]> (heap_parent f)) f).

(** [__exists(ts, d)]: [ts.name in d] *)
Definition exists_ (ts : TimeSeries) (d : gmap string TimeSeries) : bool :=
  bool_decide (is_Some (d !! ts_name ts)).

Definition is_raw_data (f : NWBFile) (ts : TimeSeries) : bool :=
  exists_ ts (raw_data f).

Definition is_stimulus (f : NWBFile) (ts : TimeSeries) : bool :=
  exists_ ts (stimulus f).

Definition is_stimulus_template (f : NWBFile) (ts : TimeSeries) : bool :=
  exists_ ts (stimulus_template f).

(** *** Epochs *)

(** What a caller may pass where an epoch is expected: a name, an [Epoch]
    object, or (inside a list) a value of another type. *)
Inductive EpochRef : Type :=
| ERName (s : string)
| ERObj (e : obj_id)
| EROther.

(** The [epoch] argument: [None], one reference, a list or a tuple. *)
Inductive EpochArg : Type :=
| EANone
| EAOne (r : EpochRef)
| EAList (l : list EpochRef)
| EATuple (l : list EpochRef).

Inductive TsRef : Type :=
| TRName (s : string)
| TRObj (ts : TimeSeries)
| TROther.

Inductive TsArg : Type :=
| TAOne (r : TsRef)
| TAList (l : list TsRef)
| TATuple (l : list TsRef).

(** Python truth value of the [epoch] argument in [if epoch:]. *)
Definition truthy (a : EpochArg) : bool :=
  match a with
  | EANone => false
  | EAOne (ERName s) => negb (String.eqb s "")
  | EAOne _ => true
  | EAList l | EATuple l => negb (Nat.eqb (length l) 0)
  end.

(** [create_epoch]: a new [Epoch] whose parent is the file, stored under
    its name. *)
Definition create_epoch (name : string) (start stop : Q) (tags : list string)
    (description : option string) : M NWBFile obj_id :=
  f <- get ;;
  let e := next_id f in
  modify (fun f => set_next_id (S e)
            (set_heap_parent (<[e := self_id f]> (heap_parent f))
               (set_heap_epoch (<[e := mkEpoch name start stop tags description []]> (heap_epoch f)) f))) ;;;
  modify (fun f => set_epochs (<[name := e]> (epochs f)) f) ;;;
  ret e.

(** [__get_epoch] *)
Definition get_epoch_ (epoch : EpochRef) : M NWBFile obj_id :=
  match epoch with
  | ERObj e => ret e
  | ERName s =>
      f <- get ;;
      match epochs f !! s with
      | Some e => ret e
      | None => raise (KeyError ("Epoch '" +:+ s +:+ "' not found"))
      end
  | EROther => raise (TypeError "epoch")
  end.

Definition get_epoch (name : EpochRef) : M NWBFile obj_id := get_epoch_ name.

(** [__get_timeseries]: a name is looked up in the raw data first, then in
    the stimuli, then in the templates. *)
Definition get_timeseries_ (timeseries : TsRef) : M NWBFile TimeSeries :=
  match timeseries with
  | TRObj ts => ret ts
  | TRName s =>
      f <- get ;;
      match raw_data f !! s with
      | Some ts => ret ts
      | None =>
          match stimulus f !! s with
          | Some ts => ret ts
          | None =>
              match stimulus_template f !! s with
              | Some ts => ret ts
              | None => raise (KeyError ("TimeSeries '" +:+ s +:+ "' not found"))
              end
          end
      end
  | TROther => raise (TypeError "timeseries")
  end.

(** Modelled from the spec: [Epoch.add_timeseries] (class [Epoch] lives in
    pynwb/epoch.py).  The epoch maps the referenced series to an
    interval-membership record that is empty until it is computed. *)
Definition Epoch_add_timeseries (ts : TimeSeries) (e : Epoch) : Epoch :=
  mkEpoch (ep_name e) (start_time e) (stop_time e) (ep_tags e) (ep_description e)
    (ep_timeseries e ++ [(ts_name ts, mkEpochTimeSeries ts None None)]).

Definition add_timeseries (ep : obj_id) (ts : TimeSeries) : M NWBFile unit :=
  modify (fun f => set_heap_epoch (alter (Epoch_add_timeseries ts) ep (heap_epoch f)) f).

(** [set_epoch_timeseries]: only a [list] is iterated; a tuple goes to
    [__get_epoch] whole and is refused there. *)
Definition set_epoch_timeseries (epoch : EpochArg) (timeseries : TsArg) : M NWBFile unit :=
  ep_objs <- match epoch with
             | EAList l => comprehension l get_epoch_
             | EAOne r => e <- get_epoch_ r ;; ret [e]
             | EANone | EATuple _ => e <- get_epoch_ EROther ;; ret [e]
             end ;;
  ts_objs <- match timeseries with
             | TAList l => comprehension l get_timeseries_
             | TAOne r => t <- get_timeseries_ r ;; ret [t]
             | TATuple _ => t <- get_timeseries_ TROther ;; ret [t]
             end ;;
  for_each ep_objs (fun ep => for_each ts_objs (fun ts => add_timeseries ep ts)).

(** *** Time series *)

(** [__set_timeseries(ts_dict, ts, epoch)] *)
Definition set_timeseries_ (d : ts_dict) (ts : TimeSeries) (epoch : EpochArg) : M NWBFile unit :=
  modify (fun f => set_dict d (<[ts_name ts := ts]> (get_dict d f)) f) ;;;
  set_parent (ts_id ts) ;;;
  if truthy epoch then set_epoch_timeseries epoch (TAOne (TRObj ts)) else ret tt.

Definition add_raw_timeseries (ts : TimeSeries) (epoch : EpochArg) : M NWBFile unit :=
  set_timeseries_ RawData ts epoch.

Definition add_stimulus (ts : TimeSeries) (epoch : EpochArg) : M NWBFile unit :=
  set_timeseries_ Stimulus ts epoch.

Definition add_stimulus_template (ts : TimeSeries) (epoch : EpochArg) : M NWBFile unit :=
  set_timeseries_ StimulusTemplate ts epoch.

(** *** Electrode groups *)

(** [set_electrode_group]: the right-hand side [len(self.__ec_electrode_idx)]
    is evaluated before the key is stored. *)
Definition set_electrode_group (elec_grp : ElectrodeGroup) : M NWBFile nat :=
  set_parent (eg_id elec_grp) ;;;
  let name := eg_name elec_grp in
  modify (fun f => set_ec_electrodes (<[name := elec_grp]> (ec_electrodes f)) f) ;;;
  modify (fun f => set_ec_electrode_idx
                     (<[name := size (ec_electrode_idx f)]> (ec_electrode_idx f)) f) ;;;
  f <- get ;;
  match ec_electrode_idx f !! name with
  | Some i => ret i
  | None => raise (KeyError "name")
  end.

(** The argument of [get_electrode_group_idx]: docval admits a [str] or an
    [ElectrodeGroup]. *)
Inductive GroupArg : Type :=
| ByName (s : string)
| ByObject (g : ElectrodeGroup).

(** [if isinstance(name, ElectrodeGroup): name = name.name] *)
Definition group_key (name : GroupArg) : pyname :=
  match name with
  | ByObject g => eg_name g
  | ByName s => inl s
  end.

(** [get_electrode_group_idx]: [dict.get(name, None)] *)
Definition get_electrode_group_idx (name : GroupArg) : M NWBFile (option nat) :=
  let name := group_key name in
  f <- get ;;
  ret (ec_electrode_idx f !! name).

(** [add_processing_module] *)
Definition add_processing_module (module : Module_) : M NWBFile unit :=
  set_parent (mod_id module) ;;;
  modify (fun f => set_modules (<[mod_name module := module]> (modules f)) f).

(** Registering a sequence of groups, one call after the other, collecting
    the returned indices. *)
Definition register_all (gs : list ElectrodeGroup) : M NWBFile (list nat) :=
  comprehension gs set_electrode_group.

(** The operations that touch the three time-series collections. *)
Inductive ts_op : Type :=
| OpAddRaw (ts : TimeSeries) (epoch : EpochArg)
| OpAddStimulus (ts : TimeSeries) (epoch : EpochArg)
| OpAddStimulusTemplate (ts : TimeSeries) (epoch : EpochArg).

Definition run_op (o : ts_op) : M NWBFile unit :=
  match o with
  | OpAddRaw ts e => add_raw_timeseries ts e
  | OpAddStimulus ts e => add_stimulus ts e
  | OpAddStimulusTemplate ts e => add_stimulus_template ts e
  end.

(** A caller that goes on after an exception: the state after each call is
    the state the next call starts from. *)
Definition run_ops (ops : list ts_op) (f : NWBFile) : NWBFile :=
  fold_left (fun f o => fst (run_op o f)) ops f.

(** *** The other methods of the class *)

(** [get_electrode_group] for a [str] argument: [self.__ec_electrodes.get(name)].
    (What the lookup of an [ElectrodeGroup] object finds depends on the hash
    of that class, which pynwb/ecephys.py defines.) *)
Definition get_electrode_group (name : string) : M NWBFile (option ElectrodeGroup) :=
  f <- get ;;
  ret (ec_electrodes f !! (inl name : pyname)).

(** [create_electrode_group]: a new [ElectrodeGroup] with [parent=self],
    registered at once. *)
Definition create_electrode_group (name : pyname) (coord : list Q)
    (desc dev loc : string) (imp : Q + Q * Q) : M NWBFile ElectrodeGroup :=
  f <- get ;;
  let elec_grp := mkElectrodeGroup (next_id f) name coord desc dev loc imp in
  modify (fun f => set_next_id (S (next_id f)) f) ;;;
  set_parent (eg_id elec_grp) ;;;
  set_electrode_group elec_grp ;;;
  ret elec_grp.

(** [link_timeseries]: the body is [pass]. *)
Definition link_timeseries (ts : TimeSeries) : M NWBFile unit := ret tt.


(** *** Vocabulary of the statements *)

(** The file of the end-to-end scenarios. *)
Definition fresh_file : NWBFile := init 0 "test.nwb" "test" 0.

(** The state [set_electrode_group] leaves behind. *)
Definition registered (g : ElectrodeGroup) (f : NWBFile) : NWBFile :=
  let f1 := set_heap_parent (<[eg_id g := self_id f]> (heap_parent f)) f in
  let f2 := set_ec_electrodes (<[eg_name g := g]> (ec_electrodes f1)) f1 in
  set_ec_electrode_idx (<[eg_name g := size (ec_electrode_idx f2)]> (ec_electrode_idx f2)) f2.

(** The collection an operation writes, and the series it is given. *)
Definition op_target (o : ts_op) : ts_dict :=
  match o with
  | OpAddRaw _ _ => RawData
  | OpAddStimulus _ _ => Stimulus
  | OpAddStimulusTemplate _ _ => StimulusTemplate
  end.

Definition op_series (o : ts_op) : TimeSeries :=
  match o with
  | OpAddRaw ts _ | OpAddStimulus ts _ | OpAddStimulusTemplate ts _ => ts
  end.

(** The three series collections of two states agree. *)
Definition same_series (f f' : NWBFile) : Prop :=
  raw_data f' = raw_data f /\
  stimulus f' = stimulus f /\
  stimulus_template f' = stimulus_template f.

(** The exceptions that resolving an epoch or a series can raise. *)
Definition lookup_exn (e : exn) : Prop :=
  match e with
  | KeyError _ | TypeError _ => True
  | _ => False
  end.

(** [m] changes the state only along [R] and raises only within [E]. *)
Definition frames {A} (R : NWBFile -> NWBFile -> Prop) (E : exn -> Prop)
    (m : M NWBFile A) : Prop :=
  forall f, R f (fst (m f)) /\
            match snd (m f) with Raise e => E e | Ok _ => True end.

(** The electrode-group dictionaries hold groups of [L] only, under their
    own names, with the same keys in both and every index below the number
    of registrations. *)
Definition registry_ok (L : list ElectrodeGroup) (f : NWBFile) : Prop :=
  (forall k, is_Some (ec_electrodes f !! k) <-> is_Some (ec_electrode_idx f !! k)) /\
  (forall k g, ec_electrodes f !! k = Some g -> eg_name g = k /\ g ∈ L) /\
  size (ec_electrode_idx f) <= length L /\
  (forall k i, ec_electrode_idx f !! k = Some i -> i < length L).

End NWB.

(** ** pynwb/io/write.py *)

Module Hdf5.

(** *** Values and the Builder tree *)

(** Python values that end up in attributes and datasets. *)
Inductive pyval : Type :=
| PNone
| PBool (b : bool)
| PInt (z : Z)
| PFloat (q : Q)
| PStr (s : string)
| PList (l : list pyval)
| PObj (o : NWB.obj_id).

(** [class TimeFinder]: [__init__] stores the intervals it is given. *)
Record TimeFinder : Type := mkTimeFinder {
  time_intervals : list (Q * Q)
}.

(** Modelled from the spec: the Builder classes ([GroupBuilder],
    [DatasetBuilder], the link builders), which write.py uses and does not
    define.  A group holds its children by name, in insertion order; a link
    is external (file and path), or internal and then hard or soft. *)
Inductive LinkBuilder : Type :=
| InternalLinkBuilder (hard : bool) (path : string)
| ExternalLinkBuilder (file_path path : string).

Record DatasetBuilder : Type := mkDatasetBuilder {
  ds_data : pyval;
  ds_attributes : list (string * pyval);
  ds_inspect : list TimeFinder
}.

Inductive GroupBuilder : Type :=
| mkGroupBuilder (groups : list (string * GroupBuilder))
                 (datasets : list (string * DatasetBuilder))
                 (attributes : list (string * pyval))
                 (links : list (string * LinkBuilder)).

Definition groups (b : GroupBuilder) : list (string * GroupBuilder) :=
  match b with mkGroupBuilder g _ _ _ => g end.
Definition datasets (b : GroupBuilder) : list (string * DatasetBuilder) :=
  match b with mkGroupBuilder _ d _ _ => d end.
Definition attributes (b : GroupBuilder) : list (string * pyval) :=
  match b with mkGroupBuilder _ _ a _ => a end.
Definition links (b : GroupBuilder) : list (string * LinkBuilder) :=
  match b with mkGroupBuilder _ _ _ l => l end.

(** [GroupBuilder()] and [GroupBuilder({name: group, ...})] *)
Definition empty_group : GroupBuilder := mkGroupBuilder [] [] [] [].
Definition group_of (gs : list (string * GroupBuilder)) : GroupBuilder :=
  mkGroupBuilder gs [] [] [].

(** [DatasetBuilder(value)] *)
Definition dataset_of (v : pyval) : DatasetBuilder := mkDatasetBuilder v [] [].

(** Lookup in, and rebinding of, a name-keyed dictionary kept in insertion
    order: a rebound key keeps its place, a new key goes last. *)
Fixpoint assoc {V} (k : string) (l : list (string * V)) : option V :=
  match l with
  | [] => None
  | (k', v) :: l' => if String.eqb k k' then Some v else assoc k l'
  end.

Fixpoint assoc_set {V} (k : string) (v : V) (l : list (string * V)) : list (string * V) :=
  match l with
  | [] => [(k, v)]
  | (k', v') :: l' => if String.eqb k k' then (k, v) :: l' else (k', v') :: assoc_set k v l'
  end.

Definition has_key {V} (k : string) (l : list (string * V)) : bool :=
  match assoc k l with Some _ => true | None => false end.

(** A name is taken at a level by a child of any kind. *)
Definition name_taken (name : string) (b : GroupBuilder) : bool :=
  has_key name (groups b) || has_key name (datasets b)
  || has_key name (attributes b) || has_key name (links b).

Definition add_group (name : string) (g : GroupBuilder) (b : GroupBuilder) : result GroupBuilder :=
  if name_taken name b then Raise (DuplicateNameError name)
  else Ok (mkGroupBuilder (groups b ++ [(name, g)]) (datasets b) (attributes b) (links b)).

Definition add_dataset (name : string) (d : DatasetBuilder) (b : GroupBuilder) : result GroupBuilder :=
  if name_taken name b then Raise (DuplicateNameError name)
  else Ok (mkGroupBuilder (groups b) (datasets b ++ [(name, d)]) (attributes b) (links b)).

Definition add_attribute (name : string) (v : pyval) (b : GroupBuilder) : result GroupBuilder :=
  if name_taken name b then Raise (DuplicateNameError name)
  else Ok (mkGroupBuilder (groups b) (datasets b) (attributes b ++ [(name, v)]) (links b)).

Definition add_link (name : string) (l : LinkBuilder) (b : GroupBuilder) : result GroupBuilder :=
  if name_taken name b then Raise (DuplicateNameError name)
  else Ok (mkGroupBuilder (groups b) (datasets b) (attributes b) (links b ++ [(name, l)])).

Definition add_soft_link (name path : string) : GroupBuilder -> result GroupBuilder :=
  add_link name (InternalLinkBuilder false path).
Definition add_hard_link (name path : string) : GroupBuilder -> result GroupBuilder :=
  add_link name (InternalLinkBuilder true path).
Definition add_external_link (name file_path path : string) : GroupBuilder -> result GroupBuilder :=
  add_link name (ExternalLinkBuilder file_path path).

(** [set_attribute] binds the attribute, replacing an earlier value. *)
Definition set_attribute (name : string) (v : pyval) (b : GroupBuilder) : GroupBuilder :=
  mkGroupBuilder (groups b) (datasets b) (assoc_set name v (attributes b)) (links b).

(** [builder[name]] for a subgroup, and the effect on [builder] of a method
    that mutates the subgroup it returned. *)
Definition get_group (name : string) (b : GroupBuilder) : result GroupBuilder :=
  match assoc name (groups b) with
  | Some g => Ok g
  | None => Raise (KeyError name)
  end.

Definition put_group (name : string) (g : GroupBuilder) (b : GroupBuilder) : GroupBuilder :=
  mkGroupBuilder (assoc_set name g (groups b)) (datasets b) (attributes b) (links b).

(** *** posixpath.join *)

Definition starts_with_slash (s : string) : bool :=
  match s with
  | String c _ => Ascii.eqb c "/"%char
  | EmptyString => false
  end.

Fixpoint ends_with_slash (s : string) : bool :=
  match s with
  | EmptyString => false
  | String c EmptyString => Ascii.eqb c "/"%char
  | String _ s' => ends_with_slash s'
  end.

(** One step of [posixpath.join]: an absolute component restarts the path,
    a component after an empty path or a trailing slash is appended as it
    is, any other is appended after a slash. *)
Definition join2 (path b : string) : string :=
  if starts_with_slash b then b
  else if String.eqb path "" || ends_with_slash path then path +:+ b
  else path +:+ "/" +:+ b.

(** [posixpath.join] on a first component and the remaining ones; the first
    must be a string, so [None] is refused. *)
Definition join (a : option string) (p : list string) : result string :=
  match a with
  | None => Raise (TypeError "expected str, bytes or os.PathLike object, not NoneType")
  | Some a => Ok (fold_left join2 p a)
  end.

(** [posixpath.join] on an unpacked argument list. *)
Definition join_star (args : list string) : result string :=
  match args with
  | [] => Raise (TypeError "join() missing 1 required positional argument: 'a'")
  | a :: p => join (Some a) p
  end.

Notation "'let!' x ':=' m 'in' k" := (rbind m (fun x => k))
  (at level 10, x name, m at level 100, k at level 200).

(** *** Containers *)

(** A container as the renderer meets it: its class, given by the names of
    [type(obj).__mro__]; its name; and the chain of owners reached through
    [parent] (the ownership graph is acyclic, so the chain is finite).  A
    container that is the [NWBFile] of pynwb/file.py carries that file's
    state in [c_file]. *)
Inductive Container : Type := mkContainer {
  c_id : NWB.obj_id;
  c_mro : list string;
  c_name : string;
  c_source : string;
  c_file : option NWB.NWBFile;
  c_parent : option Container
}.

Fixpoint mem (x : string) (l : list string) : bool :=
  match l with
  | [] => false
  | y :: l' => String.eqb x y || mem x l'
  end.

(** [isinstance(obj, cls)] *)
Definition isinstance (obj : Container) (cls : string) : bool := mem cls (c_mro obj).

(** *** Global names *)

(** The global names of write.py once it is imported: what its import
    statements bind (lines 1-9), and the functions and classes it
    defines. *)
Definition write_globals : list string :=
  ["TimeSeries"; "ElectricalSeries"; "SpatialSeries"; "Module"; "Clustering";
   "Interface"; "NWBFile"; "h5tools"; "BaseObjectHandler"; "TypeMap"; "_h5py";
   "process_spec"; "render_container"; "Hdf5Writer"; "Hdf5ContainerRenderer";
   "TimeFinder"; "NwbFileHdf5Renderer"; "is_link"; "TimeSeriesHdf5Renderer";
   "ModuleHdf5Renderer"; "InterfaceHdf5Renderer"].

(** Evaluating the global name [name] where the names [names] are bound
    (a name that is not a builtin). *)
Definition global_name (names : list string) (name : string) : result unit :=
  if mem name names then Ok tt
  else Raise (NameError ("name '" +:+ name +:+ "' is not defined")).

(** The predicates class [NWBFile] of pynwb/file.py defines, by attribute
    name; any other name is not an attribute of the class. *)
Definition NWBFile_predicate (attr : string)
    : option (NWB.NWBFile -> NWB.TimeSeries -> bool) :=
  if String.eqb attr "is_raw_data" then Some NWB.is_raw_data
  else if String.eqb attr "is_stimulus" then Some NWB.is_stimulus
  else if String.eqb attr "is_stimulus_template" then Some NWB.is_stimulus_template
  else None.

(** [parent.attr(child)] for a classification predicate. *)
Definition classify (attr : string) (parent child : Container) : result bool :=
  match c_file parent, NWBFile_predicate attr with
  | Some f, Some p => Ok (p f (NWB.mkTimeSeries (c_id child) (c_name child)))
  | _, _ => Raise (AttributeError attr)
  end.

(** *** class Hdf5ContainerRenderer *)

(** [__relative_location(parent, child)], with the name of the first
    classification predicate it calls as [raw_attr]. *)
Definition relative_location_via (raw_attr : string) (parent child : Container)
    : result string :=
  if isinstance child "NWBFile" then Ok ""
  else if isinstance parent "NWBFile" then
    if isinstance child "TimeSeries" then
      let! relpath :=
        (let! raw := classify raw_attr parent child in
         if raw then Ok (Some "acquisition/timeseries")
         else
           let! stim := classify "is_stimulus" parent child in
           if stim then Ok (Some "stimulus/presentation")
           else
             let! template := classify "is_stimulus_template" parent child in
             if template then Ok (Some "stimulus/templates")
             else Ok None) in
      join relpath [c_name child]
    else if isinstance child "Module" then join (Some "processing") [c_name child]
    else Raise (Exception "No known location")
  else if isinstance parent "Module" then
    if isinstance child "Interface" then Ok (c_name child)
    else Raise (Exception "No known location")
  else if isinstance parent "Interface" then
    if isinstance child "TimeSeries" then Ok (c_name child)
    else Raise (Exception "No known location")
  else Raise (Exception "No known location").

(** The source calls [parent.is_rawdata(child)]. *)
Definition relative_location : Container -> Container -> result string :=
  relative_location_via "is_rawdata".

(** The [while curr.parent:] loop of [get_container_location]: the segments
    collected so far, and [top_container], the last container that had a
    parent. *)
Fixpoint climb (rel : Container -> Container -> result string)
    (curr : Container) (location : list string) (top_container : Container)
    : result (list string * Container) :=
  match curr with
  | mkContainer _ _ _ _ _ (Some parent) =>
      let! segment := rel parent curr in
      climb rel parent (location ++ [segment]) curr
  | mkContainer _ _ _ _ _ None => Ok (location, top_container)
  end.

Definition get_container_location_via (rel : Container -> Container -> result string)
    (container : Container) : result (string * string) :=
  let! climbed := climb rel container [] container in
  let '(location, top_container) := climbed in
  if negb (isinstance top_container "NWBFile") then
    Raise (Exception "highest container not a file: None (None) --> ... --> None (None)")
  else
    let container_source := c_source top_container in
    let! container_path := join_star (rev location) in
    Ok (container_source, container_path).

Definition get_container_location : Container -> result (string * string) :=
  get_container_location_via relative_location.

(** [get_container_location] where the global names [names] are bound.
    The call [__relative_location(curr.parent, curr)] stands in a class
    body, so its name is read as the global
    [_Hdf5ContainerRenderer__relative_location]; [rel] is what that name is
    bound to where it is bound.  [posixpath] is reached through the global
    [_posixpath]. *)
Definition get_container_location_in (names : list string)
    (rel : Container -> Container -> result string) (container : Container)
    : result (string * string) :=
  let! climbed :=
    climb (fun parent curr =>
             let! _ := global_name names "_Hdf5ContainerRenderer__relative_location" in
             rel parent curr)
          container [] container in
  let '(location, top_container) := climbed in
  if negb (isinstance top_container "NWBFile") then
    Raise (Exception "highest container not a file: None (None) --> ... --> None (None)")
  else
    let container_source := c_source top_container in
    let! _ := global_name names "_posixpath" in
    let! container_path := join_star (rev location) in
    Ok (container_source, container_path).

(** [process] of [Hdf5ContainerRenderer], over any kind of object [O] and
    of builder [B]. *)
Section Renderer.

Context {O B : Type}.

(** [type(obj).__mro__], most derived class first, [object] last. *)
Variable mro_of : O -> list string.

(** The render procedures of the renderer class, each with the class it
    was registered for by [@procedure(cls)], in definition order. *)
Variable procedures : list (string * (O -> result B)).

(** [ret.deep_update(builder)]: the first builder after the second was
    merged into it. *)
Variable deep_update : B -> B -> result B.

(** The global names bound where [process] runs. *)
Variable names : list string.

(** [get_object_properties]: [__mro__] without its last entry, reversed. *)
Definition get_object_properties (container : O) : list string :=
  rev (removelast (mro_of container)).

(** The procedures registered for the class [prop], with that class. *)
Definition registered_for (prop : string) : list (string * (O -> result B)) :=
  List.filter (fun p => String.eqb (fst p) prop) procedures.

(** Running procedures one after the other; the first exception ends
    the run. *)
Fixpoint run_all (fs : list (O -> result B)) (container : O) : result (list B) :=
  match fs with
  | [] => Ok []
  | f :: fs' =>
      let! b := f container in
      let! bs := run_all fs' container in
      Ok (b :: bs)
  end.

(** Modelled from the spec: [BaseObjectHandler.process] (pynwb/io/utils.py),
    reached by the [super(...).process(container)] call.  It collects
    every procedure registered for a class among the object's
    properties, in the order of the properties, and executes each
    against the object. *)
Definition collect (container : O) : list (string * (O -> result B)) :=
  flat_map registered_for (get_object_properties container).

Definition base_process (container : O) : result (list B) :=
  run_all (map snd (collect container)) container.

(** [for builder in result[1:]: ret.deep_update(builder)] *)
Fixpoint merge_into (ret : B) (rest : list B) : result B :=
  match rest with
  | [] => Ok ret
  | builder :: rest' =>
      let! ret' := deep_update ret builder in
      merge_into ret' rest'
  end.

(** [Hdf5ContainerRenderer.process].  Its first statement evaluates
    [super(HDFContainerRenderer, self)], and so the global name
    [HDFContainerRenderer], before the call of the base class. *)
Definition process (container : O) : result B :=
  let! _ := global_name names "HDFContainerRenderer" in
  let! result := base_process container in
  match result with
  | [] => Raise (IndexError "list index out of range")
  | ret :: rest => merge_into ret rest
  end.

End Renderer.

(** *** Objects handed to the render procedures *)

(** The value of an attribute: plain data, or a reference to a container. *)
Inductive Field : Type :=
| Raw (v : pyval)
| Ref (c : Container).

(** An object: the container, and its instance attributes by name. *)
Record Obj : Type := mkObj {
  o_self : Container;
  o_attrs : list (string * Field)
}.

(** [obj.attr] *)
Definition getattr (obj : Obj) (attr : string) : result Field :=
  match assoc attr (o_attrs obj) with
  | Some v => Ok v
  | None => Raise (AttributeError attr)
  end.

(** The value stored when a field is written out. *)
Definition to_val (v : Field) : pyval :=
  match v with
  | Raw v => v
  | Ref c => PObj (c_id c)
  end.

(** [isinstance(value, TimeSeries)] on an attribute value. *)
Definition is_timeseries (v : Field) : bool :=
  match v with
  | Raw _ => false
  | Ref c => isinstance c "TimeSeries"
  end.

(** [get_container_location(value)]: plain data has no [parent]. *)
Definition location_of (v : Field) : result (string * string) :=
  match v with
  | Ref c => get_container_location c
  | Raw _ => Raise (AttributeError "parent")
  end.

Definition truth (v : pyval) : bool :=
  match v with
  | PNone => false
  | PBool b => b
  | PInt z => negb (Z.eqb z 0)
  | PFloat q => negb (Qeq_bool q 0)
  | PStr s => negb (String.eqb s "")
  | PList l => negb (Nat.eqb (length l) 0)
  | PObj _ => true
  end.

(** Module-level names that write.py reads and does not bind. *)
Record Globals : Type := mkGlobals {
  unit_ : pyval;
  conversion : pyval;
  resolution : pyval;
  _default_conversion : pyval;
  _default_resolution : pyval;
  FILE_VERSION_STR : string;
  _ts_locations : list (string * list string)
}.

(** *** class TimeSeriesHdf5Renderer *)

Section Procedures.

Variable G : Globals.

(** [builder.add_dataset(name, data, attributes=attrs)] *)
Definition add_data (name : string) (data : pyval) (attrs : list (string * pyval))
    (b : GroupBuilder) : result GroupBuilder :=
  add_dataset name (mkDatasetBuilder data attrs []) b.

Definition time_series (container : Obj) : result GroupBuilder :=
  let builder := empty_group in
  let! ancestry := getattr container "ancestry" in
  let builder := set_attribute "ancestry" (to_val ancestry) builder in
  let! help := getattr container "help" in
  let builder := set_attribute "help" (to_val help) builder in
  let! description := getattr container "description" in
  let builder := set_attribute "description" (to_val description) builder in
  let! source := getattr container "source" in
  let builder := set_attribute "source" (to_val source) builder in
  let! comments := getattr container "comments" in
  let builder := set_attribute "comments" (to_val comments) builder in
  let builder := set_attribute "neurodata_type" (PStr "TimeSeries") builder in
  (* Set data *)
  let! _data := getattr container "_data" in
  let! builder :=
    (if is_timeseries _data then
       let! container_loc := get_container_location (o_self container) in
       let! reference_loc := location_of _data in
       let! data_path := join (Some (snd reference_loc)) ["data"] in
       if negb (String.eqb (fst container_loc) (fst reference_loc)) then
         add_external_link "data" (fst reference_loc) data_path builder
       else
         add_soft_link "data" data_path builder
     else
       let data_attrs :=
         [("unit", unit_ G);
          ("conversion", if truth (conversion G) then conversion G else _default_conversion G);
          ("resolution", if truth (resolution G) then resolution G else _default_resolution G)] in
       add_data "data" (to_val _data) data_attrs builder) in
  (* Set timestamps *)
  let! starting_time := getattr container "starting_time" in
  if truth (to_val starting_time) then
    let! rate := getattr container "rate" in
    add_data "starting_time" (to_val starting_time)
      [("rate", to_val rate); ("unit", PStr "Seconds")] builder
  else
    let! _timestamps := getattr container "_timestamps" in
    if is_timeseries _timestamps then
      let! container_loc := get_container_location (o_self container) in
      let! _timeseries := getattr container "_timeseries" in
      let! reference_loc := location_of _timeseries in
      let! timestamps_path := join (Some (snd reference_loc)) ["timestamps"] in
      if negb (String.eqb (fst container_loc) (fst reference_loc)) then
        add_external_link "data" (fst reference_loc) timestamps_path builder
      else
        add_soft_link "timestamps" timestamps_path builder
    else
      let ts_attrs := [("interval", PInt 1); ("unit", PStr "Seconds")] in
      add_data "timestamps" (to_val _timestamps) ts_attrs builder.

Definition abstract_feature_series (container : Obj) : result GroupBuilder :=
  let builder := empty_group in
  let! features := getattr container "features" in
  let! builder := add_data "features" (to_val features) [] builder in
  let! units := getattr container "units" in
  add_data "feature_units" (to_val units) [] builder.

Definition electrical_series (container : Obj) : result GroupBuilder :=
  let builder := empty_group in
  let! electrodes := getattr container "electrodes" in
  add_data "electrode_idx" (to_val electrodes) [] builder.

Definition spatial_series (container : Obj) : result GroupBuilder :=
  let builder := empty_group in
  let! reference_frame := getattr container "reference_frame" in
  add_data "reference_frame" (to_val reference_frame) [] builder.

(** The procedures of the class with the types they are registered for. *)
Definition TimeSeriesHdf5Renderer : list (string * (Obj -> result GroupBuilder)) :=
  [("TimeSeries", time_series);
   ("TimeSeries", abstract_feature_series);
   ("ElectricalSeries", electrical_series);
   ("SpatialSeries", spatial_series)].

End Procedures.

(** *** class TimeFinder *)

(** [TimeFinder(...)]: [__init__] has one required parameter besides
    [self]. *)
Definition TimeFinder_init (args : list (list (Q * Q))) : result TimeFinder :=
  match args with
  | [time_intervals] => Ok (mkTimeFinder time_intervals)
  | [] => Raise (TypeError "__init__() missing 1 required positional argument: 'time_intervals'")
  | _ => Raise (TypeError "__init__() takes 2 positional arguments")
  end.

(** [__call__(self, chunk)]: the body is [pass], the call returns [None]. *)
Definition TimeFinder_call (self : TimeFinder) (chunk : list Q) : pyval := PNone.

(** A method the class does not define. *)
Definition TimeFinder_method (attr : string) (self : TimeFinder) (args : list Q)
    : result TimeFinder :=
  Raise (AttributeError attr).

(** *** class NwbFileHdf5Renderer *)

(** What [nwb_file] reads of an epoch and of the file. *)
Record EpochTimeSeries : Type := mkEpochTimeSeries {
  ets_count : pyval;
  ets_idx_start : pyval;
  ets_timeseries : Container
}.

Record EpochContainer : Type := mkEpochContainer {
  epc_obj : Obj;
  epc_start_time : Q;
  epc_stop_time : Q;
  epc_timeseries : list (string * EpochTimeSeries)
}.

Record FileContainer : Type := mkFileContainer {
  fc_obj : Obj;
  file_identifier : pyval;
  fc_session_description : pyval;
  fc_start_time : pyval;
  fc_epochs : list (string * EpochContainer);
  fc_timeseries : list (string * list (string * Obj));
  fc_modules : list (string * Obj)
}.

(** A [for] loop that threads a value and stops at the first exception. *)
Fixpoint foldM {A S} (body : S -> A -> result S) (l : list A) (s : S) : result S :=
  match l with
  | [] => Ok s
  | x :: l' => let! s' := body s x in foldM body l' s'
  end.

(** [sub = builder[k1][k2]...; body(sub)] where [body] mutates [sub]. *)
Fixpoint with_path (path : list string) (body : GroupBuilder -> result GroupBuilder)
    (b : GroupBuilder) : result GroupBuilder :=
  match path with
  | [] => body b
  | name :: path' =>
      let! g := get_group name b in
      let! g' := with_path path' body g in
      Ok (put_group name g' b)
  end.

(** The finders, keyed by the pair [get_container_location] returns. *)
Definition Finders : Type := list ((string * string) * TimeFinder).

Definition finder_for (k : string * string) (fs : Finders) : option TimeFinder :=
  snd <$> List.find (fun e => String.eqb (fst (fst e)) (fst k)
                              && String.eqb (snd (fst e)) (snd k)) fs.

(** [finders.setdefault(k, default)] *)
Definition setdefault (k : string * string) (default : TimeFinder) (fs : Finders)
    : TimeFinder * Finders :=
  match finder_for k fs with
  | Some tf => (tf, fs)
  | None => (default, fs ++ [(k, default)])
  end.

Section NwbFile.

Variable G : Globals.

(** The reading of [time.ctime()] when the file is rendered. *)
Variable ctime : string.

(** [process] of the renderers [nwb_file] delegates to. *)
Variable epoch_process : EpochContainer -> result GroupBuilder.
Variable ts_process : Obj -> result GroupBuilder.
Variable module_process : Obj -> result GroupBuilder.

(** Lines 164-196: the fixed layout and the root datasets. *)
Definition nwb_file_layout (container : FileContainer) : result GroupBuilder :=
  let builder := empty_group in
  let! builder :=
    add_group "general"
      (group_of [("devices", empty_group);
                 ("extracellular_ephys", empty_group);
                 ("intracellular_ephys", empty_group);
                 ("optogenetics", empty_group);
                 ("optophysiology", empty_group);
                 ("specifications", empty_group);
                 ("subject", empty_group)]) builder in
  let! builder :=
    add_group "stimulus"
      (group_of [("template", empty_group); ("presentation", empty_group)]) builder in
  let! builder :=
    add_group "acquisition"
      (group_of [("timeseries", empty_group); ("images", empty_group)]) builder in
  let! builder := add_group "epochs" empty_group builder in
  let! builder := add_group "processing" empty_group builder in
  let! builder := add_group "analysis" empty_group builder in
  let! builder := add_dataset "nwb_version" (dataset_of (PStr (FILE_VERSION_STR G))) builder in
  let! builder := add_dataset "identifier" (dataset_of (file_identifier container)) builder in
  let! builder :=
    add_dataset "session_description" (dataset_of (fc_session_description container)) builder in
  let! builder :=
    add_dataset "file_create_date" (dataset_of (PList [PStr ctime])) builder in
  add_dataset "session_start_time" (dataset_of (fc_start_time container)) builder.

(** The body of the inner loop over an epoch's series (lines 205-210). *)
Definition index_entry (epoch_container : EpochContainer) (finders : Finders)
    (entry : string * EpochTimeSeries) : result Finders :=
  let epts_container := snd entry in
  if negb (truth (ets_count epts_container) && truth (ets_idx_start epts_container)) then
    let ts := ets_timeseries epts_container in
    let! ts_path := get_container_location ts in
    let! default := TimeFinder_init [] in
    let '(tf, finders) := setdefault ts_path default finders in
    let! _ := TimeFinder_method "add_interval" tf
                [epc_start_time epoch_container; epc_start_time epoch_container] in
    Ok finders
  else Ok finders.

(** The loop over the epochs (lines 201-210); [name] stays bound after
    the loop to the last epoch's name. *)
Definition render_epoch (st : GroupBuilder * Finders * option string)
    (item : string * EpochContainer)
    : result (GroupBuilder * Finders * option string) :=
  let '(builder, finders, _) := st in
  let '(name, epoch_container) := item in
  let! epoch_builder := epoch_process epoch_container in
  let! builder := with_path ["epochs"] (add_group name epoch_builder) builder in
  let! finders := foldM (index_entry epoch_container) (epc_timeseries epoch_container) finders in
  Ok (builder, finders, Some name).

(** Lines 212-213: [builder[dset_path]], where the key is the pair
    returned by [get_container_location] and the children of a group are
    keyed by name. *)
Definition attach_finder (builder : GroupBuilder) (item : (string * string) * TimeFinder)
    : result GroupBuilder :=
  Raise (KeyError (snd (fst item))).

(** Lines 216-220: the group added for a series is named by [name], the
    variable of the loop over the epochs. *)
Definition render_modality (name : option string) (builder : GroupBuilder)
    (item : string * list (string * Obj)) : result GroupBuilder :=
  let '(modality, ts_containers) := item in
  let! location :=
    match assoc modality (_ts_locations G) with
    | Some l => Ok l
    | None => Raise (KeyError modality)
    end in
  with_path location
    (fun subgroup_builder =>
       foldM (fun subgroup_builder ts_item =>
                let! ts_group_builder := ts_process (snd ts_item) in
                match name with
                | Some name => add_group name ts_group_builder subgroup_builder
                | None => Raise (UnboundLocalError "name")
                end)
             ts_containers subgroup_builder)
    builder.

(** Lines 222-226; here [name] is the loop's own variable. *)
Definition render_modules (container : FileContainer) (builder : GroupBuilder)
    : result GroupBuilder :=
  with_path ["processing"]
    (fun processing_builder =>
       foldM (fun processing_builder item =>
                let! mod_group_builder := module_process (snd item) in
                add_group (fst item) mod_group_builder processing_builder)
             (fc_modules container) processing_builder)
    builder.

(** Lines 198-228, from the builder the first part leaves. *)
Definition nwb_file_contents (container : FileContainer) (builder : GroupBuilder)
    : result GroupBuilder :=
  let! _ := get_group "epochs" builder in
  let! st := foldM render_epoch (fc_epochs container) (builder, [], None) in
  let '(builder, finders, name) := st in
  let! builder := foldM attach_finder finders builder in
  let! builder := foldM (render_modality name) (fc_timeseries container) builder in
  render_modules container builder.

Definition nwb_file (container : FileContainer) : result GroupBuilder :=
  let! builder := nwb_file_layout container in
  nwb_file_contents container builder.

End NwbFile.

(** [nwb_file] where the global names [names] are bound; [rel] is as in
    [get_container_location_in].  Each name is looked up where the body
    first evaluates it: [GroupBulder] on line 164, [GroupBuilder] on line
    165, [DatasetBuilder] and [FILE_VERSION_STR] on line 192, [np], [time]
    and [h5py] on line 195, [EpochHdf5Renderer] on line 198 and
    [_ts_locations] on line 217, once for each modality.  Between these
    lookups the body is that of [nwb_file]. *)
Section NwbFileIn.

Variable names : list string.
Variable rel : Container -> Container -> result string.
Variable G : Globals.
Variable ctime : string.
Variable epoch_process : EpochContainer -> result GroupBuilder.
Variable ts_process : Obj -> result GroupBuilder.
Variable module_process : Obj -> result GroupBuilder.

(** Lines 205-210. *)
Definition index_entry_in (epoch_container : EpochContainer) (finders : Finders)
    (entry : string * EpochTimeSeries) : result Finders :=
  let epts_container := snd entry in
  if negb (truth (ets_count epts_container) && truth (ets_idx_start epts_container)) then
    let ts := ets_timeseries epts_container in
    let! ts_path := get_container_location_in names rel ts in
    let! default := TimeFinder_init [] in
    let '(tf, finders) := setdefault ts_path default finders in
    let! _ := TimeFinder_method "add_interval" tf
                [epc_start_time epoch_container; epc_start_time epoch_container] in
    Ok finders
  else Ok finders.

(** Lines 201-210. *)
Definition render_epoch_in (st : GroupBuilder * Finders * option string)
    (item : string * EpochContainer)
    : result (GroupBuilder * Finders * option string) :=
  let '(builder, finders, _) := st in
  let '(name, epoch_container) := item in
  let! epoch_builder := epoch_process epoch_container in
  let! builder := with_path ["epochs"] (add_group name epoch_builder) builder in
  let! finders :=
    foldM (index_entry_in epoch_container) (epc_timeseries epoch_container) finders in
  Ok (builder, finders, Some name).

Definition nwb_file_in (container : FileContainer) : result GroupBuilder :=
  let! _ := global_name names "GroupBulder" in
  let! _ := global_name names "GroupBuilder" in
  let! _ := global_name names "DatasetBuilder" in
  let! _ := global_name names "FILE_VERSION_STR" in
  let! _ := global_name names "np" in
  let! _ := global_name names "time" in
  let! _ := global_name names "h5py" in
  let! builder := nwb_file_layout G ctime container in
  let! _ := global_name names "EpochHdf5Renderer" in
  let! _ := get_group "epochs" builder in
  let! st := foldM render_epoch_in (fc_epochs container) (builder, [], None) in
  let '(builder, finders, name) := st in
  let! builder := foldM attach_finder finders builder in
  let! builder :=
    foldM (fun builder item =>
             let! _ := global_name names "_ts_locations" in
             render_modality G ts_process name builder item)
          (fc_timeseries container) builder in
  render_modules module_process container builder.

End NwbFileIn.

(** The procedure of class [NwbFileHdf5Renderer] with the type it is
    registered for. *)
Definition NwbFileHdf5Renderer (nwb_file_ : FileContainer -> result GroupBuilder)
    : list (string * (FileContainer -> result GroupBuilder)) :=
  [("NWBFile", nwb_file_)].

(** *** class Hdf5Writer *)

(** The calls made on the storage backend, in the order they are made. *)
Inductive backend_op : Type :=
| OpenFile (file_path mode : string)
| CreateGroup (path : string)
| CreateDataset (path : string) (d : DatasetBuilder)
| SetAttribute (path name : string) (v : pyval)
| CreateExternalLink (link_name file_path path : string)
| CreateHardLink (link_name path : string)
| CreateSoftLink (link_name path : string)
| CloseFile.

Definition is_link_op (o : backend_op) : bool :=
  match o with
  | CreateExternalLink _ _ _ | CreateHardLink _ _ | CreateSoftLink _ _ => true
  | _ => false
  end.

Definition is_structural_op (o : backend_op) : bool :=
  match o with
  | CreateGroup _ | CreateDataset _ _ | SetAttribute _ _ _ => true
  | _ => false
  end.

(** The path an operation makes resolvable in the file. *)
Definition created_path (o : backend_op) : option string :=
  match o with
  | CreateGroup p | CreateDataset p _ => Some p
  | CreateExternalLink n _ _ | CreateHardLink n _ | CreateSoftLink n _ => Some n
  | _ => None
  end.

(** [path in f] after the calls [ops]. *)
Definition path_exists (path : string) (ops : list backend_op) : bool :=
  existsb (fun o => match created_path o with
                    | Some p => String.eqb p path
                    | None => false
                    end) ops.

Definition child_path (parent name : string) : string := parent +:+ "/" +:+ name.

(** Modelled from the spec: [h5tools.write_group] (pynwb/io/h5tools.py).
    It creates the group, within it its datasets and attributes, then its
    subgroups depth-first, and returns the links it met, keyed by their
    full intended path, without creating them. *)
Fixpoint write_builder (path : string) (b : GroupBuilder)
    : list backend_op * list (string * LinkBuilder) :=
  match b with
  | mkGroupBuilder gs ds ats ls =>
      let sub :=
        (fix each (gs : list (string * GroupBuilder)) :=
           match gs with
           | [] => ([], [])
           | (name, g) :: gs' =>
               let r := write_builder (child_path path name) g in
               let rs := each gs' in
               (fst r ++ fst rs, snd r ++ snd rs)
           end) gs in
      (CreateGroup path
         :: map (fun d => CreateDataset (child_path path (fst d)) (snd d)) ds
         ++ map (fun a => SetAttribute path (fst a) (snd a)) ats
         ++ fst sub,
       map (fun l => (child_path path (fst l), snd l)) ls ++ snd sub)
  end.

Definition write_group (name : string)
    (groups_ : list (string * GroupBuilder)) (datasets_ : list (string * DatasetBuilder))
    (attributes_ : list (string * pyval)) (links_ : list (string * LinkBuilder))
    : list backend_op * list (string * LinkBuilder) :=
  write_builder name (mkGroupBuilder groups_ datasets_ attributes_ links_).

(** [links.update(tmp_links)] *)
Definition update {V} (d tmp : list (string * V)) : list (string * V) :=
  fold_left (fun d kv => assoc_set (fst kv) (snd kv) d) tmp d.

(** The first loop of [write]: the groups of the root builder. *)
Fixpoint write_groups (gs : list (string * GroupBuilder))
    (ops : list backend_op) (links_ : list (string * LinkBuilder))
    : list backend_op * list (string * LinkBuilder) :=
  match gs with
  | [] => (ops, links_)
  | (name, grp_builder) :: gs' =>
      let r := write_group name (groups grp_builder) (datasets grp_builder)
                 (attributes grp_builder) (links grp_builder) in
      write_groups gs' (ops ++ fst r) (update links_ (snd r))
  end.

(** The second loop of [write]: the deferred links.  A hard link reads
    [f[link_builder.path]], which fails on a path the file does not have. *)
Fixpoint write_links (ls : list (string * LinkBuilder)) (ops : list backend_op)
    : list backend_op * result unit :=
  match ls with
  | [] => (ops, Ok tt)
  | (link_name, ExternalLinkBuilder file_path path) :: ls' =>
      write_links ls' (ops ++ [CreateExternalLink link_name file_path path])
  | (link_name, InternalLinkBuilder true path) :: ls' =>
      if path_exists path ops
      then write_links ls' (ops ++ [CreateHardLink link_name path])
      else (ops, Raise (KeyError path))
  | (link_name, InternalLinkBuilder false path) :: ls' =>
      write_links ls' (ops ++ [CreateSoftLink link_name path])
  end.

(** The second loop of [write] where the global names [names] are bound:
    the branches of an external and of a soft link evaluate [h5py] before
    anything is assigned.  [resolves path ops] is whether [f[path]] finds
    an object after the calls [ops], which is for h5py to say. *)
Fixpoint write_links_in (names : list string) (resolves : string -> list backend_op -> bool)
    (ls : list (string * LinkBuilder)) (ops : list backend_op)
    : list backend_op * result unit :=
  match ls with
  | [] => (ops, Ok tt)
  | (link_name, ExternalLinkBuilder file_path path) :: ls' =>
      match global_name names "h5py" with
      | Ok _ =>
          write_links_in names resolves ls'
            (ops ++ [CreateExternalLink link_name file_path path])
      | Raise e => (ops, Raise e)
      end
  | (link_name, InternalLinkBuilder true path) :: ls' =>
      if resolves path ops
      then write_links_in names resolves ls' (ops ++ [CreateHardLink link_name path])
      else (ops, Raise (KeyError path))
  | (link_name, InternalLinkBuilder false path) :: ls' =>
      match global_name names "h5py" with
      | Ok _ => write_links_in names resolves ls' (ops ++ [CreateSoftLink link_name path])
      | Raise e => (ops, Raise e)
      end
  end.

(** [Hdf5Writer.write]: the backend calls made, and how the method ends.
    [renderer_process] is [self.__renderer.process]. *)
Definition write {C} (renderer_process : C -> result GroupBuilder)
    (nwb_container : C) (file_path : string) : list backend_op * result unit :=
  let ops := [OpenFile file_path "w"] in
  match renderer_process nwb_container with
  | Raise e => (ops, Raise e)
  | Ok builder =>
      let '(ops, links_) := write_groups (groups builder) ops [] in
      match write_links links_ ops with
      | (ops, Ok _) => (ops ++ [CloseFile], Ok tt)
      | (ops, Raise e) => (ops, Raise e)
      end
  end.

(** *** Interval membership as the specification words it *)

(** The timestamps of a series given by a start time and a rate. *)
Definition regular_grid (n : nat) (starting_time rate : Q) : list Q :=
  map (fun i => (starting_time + inject_Z (Z.of_nat i) / rate)%Q) (seq 0 n).

(** The smallest index whose timestamp is at least [start]; the number of
    samples when there is none. *)
Fixpoint spec_start_index (T : list Q) (start : Q) : nat :=
  match T with
  | [] => 0
  | t :: T' => if Qle_bool start t then 0 else S (spec_start_index T' start)
  end.

(** The number of consecutive samples from the head with a timestamp at
    most [stop]. *)
Fixpoint spec_run (T : list Q) (stop : Q) : nat :=
  match T with
  | [] => 0
  | t :: T' => if Qle_bool t stop then S (spec_run T' stop) else 0
  end.

(** The record [(start_index, count)] of section 4.5 of the specification. *)
Definition spec_interval (T : list Q) (start stop : Q) : nat * nat :=
  let start_index := spec_start_index T start in
  (start_index, spec_run (drop start_index T) stop).

(** *** The end-to-end scenarios *)

Definition NWBFile_mro : list string := ["NWBFile"; "NWBContainer"; "object"].
Definition TimeSeries_mro : list string := ["TimeSeries"; "NWBContainer"; "object"].
Definition ElectricalSeries_mro : list string :=
  ["ElectricalSeries"; "TimeSeries"; "NWBContainer"; "object"].
Definition Module_mro : list string := ["Module"; "NWBContainer"; "object"].
Definition Interface_mro : list string := ["Interface"; "NWBContainer"; "object"].

(** The container of a file in state [f], owned by nothing. *)
Definition file_container (f : NWB.NWBFile) : Container :=
  mkContainer (NWB.self_id f) NWBFile_mro (NWB.filename f) (NWB.filename f) (Some f) None.

(** A container of class [mro] named [name], owned by [parent]. *)
Definition child_container (id : NWB.obj_id) (mro : list string) (name : string)
    (parent : Container) : Container :=
  mkContainer id mro name "" None (Some parent).

(** The file of the scenario: "series1" attached as raw data, and the
    epoch "ep1" over [10.0, 20.0] referring to it. *)
Definition scenario_state : NWB.NWBFile :=
  let series1 := NWB.mkTimeSeries 1 "series1" in
  let f := fst (NWB.add_raw_timeseries series1 NWB.EANone NWB.fresh_file) in
  let f := fst (NWB.create_epoch "ep1" 10 20 [] None f) in
  fst (NWB.set_epoch_timeseries (NWB.EAOne (NWB.ERName "ep1"))
         (NWB.TAOne (NWB.TRObj series1)) f).

Definition series1 : Container :=
  child_container 1 ElectricalSeries_mro "series1" (file_container scenario_state).

Definition attrs_of (data timestamps : Field) (starting_time rate : pyval)
    : list (string * Field) :=
  [("ancestry", Raw (PList [PStr "TimeSeries"]));
   ("help", Raw (PStr "General time series object"));
   ("description", Raw (PStr ""));
   ("source", Raw (PStr "test"));
   ("comments", Raw (PStr ""));
   ("_data", data);
   ("_timestamps", timestamps);
   ("starting_time", Raw starting_time);
   ("rate", Raw rate)].

(** 100 samples at rate 1.0 starting at 0.0 *)
Definition series1_obj : Obj :=
  mkObj series1
    (attrs_of (Raw (PList (map (fun i => PInt (Z.of_nat i)) (seq 0 100))))
       (Raw PNone) (PFloat 0) (PFloat 1)
     ++ [("electrodes", Raw (PList [PInt 0]))]).

Definition ep1 : EpochContainer :=
  mkEpochContainer
    (mkObj (child_container 2 ["Epoch"; "NWBContainer"; "object"] "ep1"
              (file_container scenario_state)) [])
    10 20
    [("series1", mkEpochTimeSeries PNone PNone series1)].

Definition scenario_file : FileContainer :=
  mkFileContainer (mkObj (file_container scenario_state) [])
    (PStr "test.nwb 1970-01-01T00:00:00Z") (PStr "test") (PInt 0)
    [("ep1", ep1)] [] [].

(** A second series of the same file whose data is that of "series1". *)
Definition series2_obj : Obj :=
  mkObj (child_container 3 TimeSeries_mro "series2" (file_container scenario_state))
    (attrs_of (Ref series1) (Raw PNone) (PFloat 0) (PFloat 1)).

(** A series inside an interface of a processing module, and a second one
    there sharing its data. *)
Definition module_container : Container :=
  child_container 4 Module_mro "shank" (file_container scenario_state).
Definition interface_container : Container :=
  child_container 5 Interface_mro "Clustering" module_container.
Definition nested_series (id : NWB.obj_id) (name : string) : Container :=
  child_container id TimeSeries_mro name interface_container.
Definition nested_obj : Obj :=
  mkObj (nested_series 7 "copy")
    (attrs_of (Ref (nested_series 6 "original")) (Raw PNone) (PFloat 0) (PFloat 1)).

(** A file whose stimulus-template collection holds "grating". *)
Definition template_state : NWB.NWBFile :=
  fst (NWB.add_stimulus_template (NWB.mkTimeSeries 1 "grating") NWB.EANone NWB.fresh_file).
Definition grating : Container :=
  child_container 1 TimeSeries_mro "grating" (file_container template_state).

(** The names of the groups the layout puts under the root group [name]. *)
Definition layout_children (G : Globals) (ctime : string) (container : FileContainer)
    (name : string) : list string :=
  match nwb_file_layout G ctime container with
  | Ok builder =>
      match assoc name (groups builder) with
      | Some g => map fst (groups g)
      | None => []
      end
  | Raise _ => []
  end.

(** A builder with one root dataset, one group and, in it, a soft link. *)
Definition small_builder : GroupBuilder :=
  mkGroupBuilder
    [("acquisition",
      mkGroupBuilder [] [("data", dataset_of (PInt 1))] []
        [("alias", InternalLinkBuilder false "acquisition/data")])]
    [("session_description", dataset_of (PStr "test"))] [] [].

Definition some_globals : Globals :=
  mkGlobals (PStr "Volts") PNone PNone (PFloat 1) (PFloat 0) "NWB-1.0.4"
    [("raw_data", ["acquisition"; "timeseries"])].

(** A file that is itself owned by a container, and a series inside the
    interface "Clustering" of its module "shank". *)
Definition archive : Container :=
  mkContainer 9 ["NWBContainer"; "object"] "archive" "" None None.
Definition owned_file (file_name : string) : Container :=
  mkContainer 0 NWBFile_mro file_name file_name (Some NWB.fresh_file) (Some archive).
Definition shelved (file_name : string) (id : NWB.obj_id) (name : string) : Container :=
  child_container id TimeSeries_mro name
    (child_container 5 Interface_mro "Clustering"
       (child_container 4 Module_mro "shank" (owned_file file_name))).

(** A file with no epochs, series or modules. *)
Definition plain_file : FileContainer :=
  mkFileContainer (mkObj (file_container NWB.fresh_file) [])
    (PStr "test.nwb 1970-01-01T00:00:00Z") (PStr "test") (PInt 0) [] [] [].

(** *** Vocabulary of the statements *)

(** [top_container] when the loop of [get_container_location] ends. *)
Fixpoint top_of (curr top_container : Container) : Container :=
  match curr with
  | mkContainer _ _ _ _ _ (Some parent) => top_of parent curr
  | mkContainer _ _ _ _ _ None => top_container
  end.

Definition result_map {A B} (f : A -> B) (r : result A) : result B :=
  match r with
  | Ok a => Ok (f a)
  | Raise e => Raise e
  end.

(** [b] with the value of the root dataset "file_create_date", if it has
    one, replaced by the reading [ctime]. *)
Definition redate (ctime : string) (b : GroupBuilder) : GroupBuilder :=
  mkGroupBuilder (groups b)
    (map (fun d => if String.eqb (fst d) "file_create_date"
                   then (fst d, dataset_of (PList [PStr ctime])) else d)
         (datasets b))
    (attributes b) (links b).

(** The position of a class in a list of classes. *)
Fixpoint index_of (cls : string) (l : list string) : option nat :=
  match l with
  | [] => None
  | c :: l' => if String.eqb cls c then Some 0 else S <$> index_of cls l'
  end.

(** [body] does to a redated builder what it does to the builder, and
    redates the outcome. *)
Definition commutes_redate (ctime : string)
    (body : GroupBuilder -> result GroupBuilder) : Prop :=
  forall b, body (redate ctime b) = result_map (redate ctime) (body b).

(** *** Links *)

(** [is_link(container, attr)] *)
Definition is_link (container : Obj) (attr : string) : bool := false.

(** *** Vocabulary of further statements *)

Definition is_hard (l : LinkBuilder) : bool :=
  match l with
  | InternalLinkBuilder hard _ => hard
  | ExternalLinkBuilder _ _ => false
  end.

Definition is_hard_link_op (o : backend_op) : bool :=
  match o with
  | CreateHardLink _ _ => true
  | _ => false
  end.

End Hdf5.

(** * Properties of NWBFile (pynwb/file.py) *)

Module NWBFacts.

Import NWB.
Local Open Scope py_scope.

(** ** Electrode groups *)

Lemma set_electrode_group_run (g : ElectrodeGroup) (f : NWBFile) :
  set_electrode_group g f = (registered g f, Ok (size (ec_electrode_idx f))).
Proof.
  unfold set_electrode_group, set_parent, registered, bind, modify, get, ret. simpl.
  by rewrite lookup_insert_eq.
Qed.

Lemma registered_idx (g : ElectrodeGroup) (f : NWBFile) :
  ec_electrode_idx (registered g f)
  = <[eg_name g := size (ec_electrode_idx f)]> (ec_electrode_idx f).
Proof. reflexivity. Qed.

Lemma comprehension_cons {S A B} (f : A -> M S B) (x : A) (l : list A) (s : S) :
  comprehension (x :: l) f s =
  match f x s with
  | (s1, Ok y) =>
      match comprehension l f s1 with
      | (s2, Ok ys) => (s2, Ok (y :: ys))
      | (s2, Raise e) => (s2, Raise e)
      end
  | (s1, Raise e) => (s1, Raise e)
  end.
Proof.
  simpl. unfold bind at 1. destruct (f x s) as [s1 [y|e]]; [|done].
  unfold bind, ret. by destruct (comprehension l f s1) as [s2 [ys|e]].
Qed.

(** Registering groups whose names are new and pairwise distinct: the
    indices continue from the size of the index dictionary. *)
Lemma register_all_from (gs : list ElectrodeGroup) (f : NWBFile) :
  NoDup (eg_name <$> gs) ->
  (forall g, g ∈ gs -> ec_electrode_idx f !! eg_name g = None) ->
  let r := register_all gs f in
  snd r = Ok (seq (size (ec_electrode_idx f)) (length gs)) /\
  (forall i g, gs !! i = Some g ->
     ec_electrode_idx (fst r) !! eg_name g = Some (size (ec_electrode_idx f) + i)) /\
  (forall k, k ∉ (eg_name <$> gs) ->
     ec_electrode_idx (fst r) !! k = ec_electrode_idx f !! k).
Proof.
  revert f. induction gs as [|g gs IH]; intros f Hnd Hnew.
  - simpl. split; [done|]. split; [intros i g H; by destruct i | done].
  - apply NoDup_cons in Hnd as [Hg Hnd].
    assert (Hnone : ec_electrode_idx f !! eg_name g = None)
      by (apply Hnew; left).
    assert (Hsz : size (ec_electrode_idx (registered g f)) = S (size (ec_electrode_idx f)))
      by (rewrite registered_idx; by apply map_size_insert_None).
    specialize (IH (registered g f) Hnd).
    destruct IH as (IHr & IHi & IHk).
    { intros g' Hg'. rewrite registered_idx, lookup_insert_ne.
      - apply Hnew. by right.
      - intros Heq. apply Hg. rewrite Heq. by apply list_elem_of_fmap_2. }
    unfold register_all in *. cbv zeta in *.
    rewrite comprehension_cons, set_electrode_group_run.
    destruct (comprehension gs set_electrode_group (registered g f)) as [s2 [ys|e]] eqn:E;
      cbn [fst snd length seq] in *; [|done].
    assert (ys = seq (size (ec_electrode_idx (registered g f))) (length gs)) as ->
      by congruence.
    rewrite Hsz.
    split; [done|]. split.
    + intros [|i] g' Hi; simpl in Hi.
      * injection Hi as <-. rewrite IHk by done.
        rewrite registered_idx, lookup_insert_eq. f_equal; lia.
      * rewrite (IHi i g' Hi), Hsz. f_equal; lia.
    + intros k Hk. rewrite fmap_cons in Hk. apply not_elem_of_cons in Hk as [Hk1 Hk2].
      rewrite IHk by done. by rewrite registered_idx, lookup_insert_ne.
Qed.

Lemma get_electrode_group_idx_run (a : GroupArg) (f : NWBFile) :
  get_electrode_group_idx a f = (f, Ok (ec_electrode_idx f !! group_key a)).
Proof. reflexivity. Qed.

(** Registration never touches the index of a name that is not among the
    registered ones, whatever the names are. *)
Lemma register_all_other (gs : list ElectrodeGroup) (f : NWBFile) (k : pyname) :
  k ∉ (eg_name <$> gs) ->
  ec_electrode_idx (fst (register_all gs f)) !! k = ec_electrode_idx f !! k.
Proof.
  revert f. induction gs as [|g gs IH]; intros f Hk; [done|].
  rewrite fmap_cons in Hk. apply not_elem_of_cons in Hk as [Hk1 Hk2].
  unfold register_all in *.
  rewrite comprehension_cons, set_electrode_group_run.
  specialize (IH (registered g f) Hk2).
  destruct (comprehension gs set_electrode_group (registered g f)) as [s2 [ys|e]];
    cbn [fst] in *; rewrite IH, registered_idx; by rewrite lookup_insert_ne.
Qed.

(** C5: the n-th of a sequence of distinctly named groups registered on a
    new file gets index n-1, and the index is the same whether it is asked
    for by the group's name or by the group object. *)
Theorem electrode_group_index_insertion_order
    (self : obj_id) (file_name description : string) (now : Z)
    (gs : list ElectrodeGroup) :
  NoDup (eg_name <$> gs) ->
  let r := register_all gs (init self file_name description now) in
  snd r = Ok (seq 0 (length gs)) /\
  forall n g, gs !! n = Some g ->
    snd (get_electrode_group_idx (ByObject g) (fst r)) = Ok (Some n) /\
    forall s, eg_name g = inl s ->
      snd (get_electrode_group_idx (ByName s) (fst r)) = Ok (Some n).
Proof.
  intros Hnd.
  destruct (register_all_from gs (init self file_name description now) Hnd)
    as (Hr & Hi & _); [done|].
  cbv zeta. split; [exact Hr|].
  intros n g Hg. rewrite !get_electrode_group_idx_run. cbn [snd group_key].
  split.
  - by rewrite (Hi n g Hg).
  - intros s Hs. rewrite get_electrode_group_idx_run. cbn [snd group_key].
    by rewrite <- Hs, (Hi n g Hg).
Qed.

Lemma electrode_group_index_third :
  let g (i : nat) (s : string) := mkElectrodeGroup i (inl s) [] "" "" "" (inl 0%Q) in
  let r := register_all [g 1 "tetrode1"; g 2 "tetrode2"; g 3 "shank"] fresh_file in
  snd r = Ok [0; 1; 2] /\
  snd (get_electrode_group_idx (ByObject (g 3 "shank")) (fst r)) = Ok (Some 2) /\
  snd (get_electrode_group_idx (ByName "shank") (fst r)) = Ok (Some 2).
Proof.
  intros g r.
  destruct (electrode_group_index_insertion_order 0 "test.nwb" "test" 0
              [g 1 "tetrode1"; g 2 "tetrode2"; g 3 "shank"]) as [Hr Hi].
  { apply (bool_decide_unpack _). vm_compute. exact I. }
  split; [exact Hr|].
  destruct (Hi 2 (g 3 "shank") eq_refl) as [Ho Hn].
  split; [exact Ho | exact (Hn "shank" eq_refl)].
Defined.

(** C10: for a name, or a group whose name, was never registered,
    [get_electrode_group_idx] returns [None]; and it returns normally on
    every argument and every file. *)
Theorem get_electrode_group_idx_unregistered
    (self : obj_id) (file_name description : string) (now : Z)
    (gs : list ElectrodeGroup) (a : GroupArg) :
  group_key a ∉ (eg_name <$> gs) ->
  snd (get_electrode_group_idx a
         (fst (register_all gs (init self file_name description now)))) = Ok None /\
  forall (f : NWBFile) (b : GroupArg), is_ok (snd (get_electrode_group_idx b f)) = true.
Proof.
  intros Hk. split; [|done].
  rewrite get_electrode_group_idx_run. cbn [snd].
  by rewrite (register_all_other gs _ _ Hk).
Qed.

Lemma get_electrode_group_idx_unregistered_example :
  let g (i : nat) (s : string) := mkElectrodeGroup i (inl s) [] "" "" "" (inl 0%Q) in
  snd (get_electrode_group_idx (ByName "probe9")
         (fst (register_all [g 1 "tetrode1"; g 2 "tetrode2"] fresh_file))) = Ok None.
Proof.
  intros g.
  refine (proj1 (get_electrode_group_idx_unregistered 0 "test.nwb" "test" 0
                   [g 1 "tetrode1"; g 2 "tetrode2"] (ByName "probe9") _)).
  apply (bool_decide_unpack _). vm_compute. exact I.
Defined.

(** ** The three series collections *)

Section Frames.

Context {R : NWBFile -> NWBFile -> Prop} {E : exn -> Prop}.
Hypothesis R_refl : forall f, R f f.
Hypothesis R_trans : forall f g h, R f g -> R g h -> R f h.

Lemma frames_ret {A} (a : A) : frames R E (ret a).
Proof using R_refl. intros f. by split. Qed.

Lemma frames_raise {A} (e : exn) : E e -> frames R E (@raise NWBFile A e).
Proof using R_refl. intros He f. by split. Qed.

Lemma frames_get : frames R E get.
Proof using R_refl. intros f. by split. Qed.

Lemma frames_bind {A B} (m : M NWBFile A) (k : A -> M NWBFile B) :
  frames R E m -> (forall a, frames R E (k a)) -> frames R E (bind m k).
Proof using R_trans.
  intros Hm Hk f. unfold bind. specialize (Hm f).
  destruct (m f) as [f1 [a|e]]; cbn [fst snd] in *; [|done].
  destruct Hm as [Hm _]. destruct (Hk a f1) as [H1 H2].
  split; [by eapply R_trans|done].
Qed.

Lemma frames_comprehension {A B} (l : list A) (k : A -> M NWBFile B) :
  (forall a, frames R E (k a)) -> frames R E (comprehension l k).
Proof using R_refl R_trans.
  intros Hk. induction l as [|x l IH]; cbn [comprehension].
  - apply frames_ret.
  - apply frames_bind; [done|]. intros y.
    apply frames_bind; [done|]. intros ys. apply frames_ret.
Qed.

Lemma frames_for_each {A} (l : list A) (k : A -> M NWBFile unit) :
  (forall a, frames R E (k a)) -> frames R E (for_each l k).
Proof using R_refl R_trans.
  intros Hk. induction l as [|x l IH]; cbn [for_each].
  - apply frames_ret.
  - apply frames_bind; [done|]. by intros _.
Qed.

End Frames.

Lemma same_series_refl (f : NWBFile) : same_series f f.
Proof. by repeat split. Qed.

Lemma same_series_trans (f g h : NWBFile) :
  same_series f g -> same_series g h -> same_series f h.
Proof. intros (?&?&?) (?&?&?). repeat split; congruence. Qed.

Create HintDb nwb.
#[local] Hint Resolve same_series_refl same_series_trans : nwb.

Ltac frame_step :=
  first [ apply frames_ret | apply frames_get | apply frames_raise
        | apply frames_bind | apply frames_comprehension | apply frames_for_each ];
  eauto with nwb; try exact I.

Lemma get_epoch_frames (r : EpochRef) : frames same_series lookup_exn (get_epoch_ r).
Proof.
  destruct r as [s|e|]; cbn [get_epoch_]; repeat frame_step.
  intros f. destruct (epochs f !! s); repeat frame_step.
Qed.

Lemma get_timeseries_frames (r : TsRef) : frames same_series lookup_exn (get_timeseries_ r).
Proof.
  destruct r as [s|ts|]; cbn [get_timeseries_]; repeat frame_step.
  intros f. destruct (raw_data f !! s); [repeat frame_step|].
  destruct (stimulus f !! s); [repeat frame_step|].
  destruct (stimulus_template f !! s); repeat frame_step.
Qed.

Lemma add_timeseries_frames (ep : obj_id) (ts : TimeSeries) :
  frames same_series lookup_exn (add_timeseries ep ts).
Proof. intros f. by repeat split. Qed.

(** Attaching a series to epochs leaves the three collections alone and
    fails only on an epoch that cannot be resolved. *)
Lemma set_epoch_timeseries_frames (epoch : EpochArg) (timeseries : TsArg) :
  frames same_series lookup_exn (set_epoch_timeseries epoch timeseries).
Proof.
  unfold set_epoch_timeseries.
  apply frames_bind; eauto with nwb.
  { destruct epoch; repeat frame_step; auto using get_epoch_frames;
      intros; repeat frame_step. }
  intros eps. apply frames_bind; eauto with nwb.
  { destruct timeseries; repeat frame_step; auto using get_timeseries_frames;
      intros; repeat frame_step. }
  intros tss. apply frames_for_each; eauto with nwb.
  intros ep. apply frames_for_each; eauto with nwb.
  intros ts. apply add_timeseries_frames.
Qed.

(** What [__set_timeseries] does to the collection [d'] when it is handed
    the collection [d]: the entry of the series's name is (re)bound in [d],
    every other collection is as before; a failure can only come from
    resolving the epoch. *)
Lemma set_timeseries_run (d d' : ts_dict) (ts : TimeSeries) (epoch : EpochArg) (f : NWBFile) :
  let r := set_timeseries_ d ts epoch f in
  get_dict d' (fst r) =
    (if bool_decide (d = d') then <[ts_name ts := ts]> (get_dict d' f) else get_dict d' f) /\
  match snd r with Raise e => lookup_exn e | Ok _ => True end.
Proof.
  cbv zeta. unfold set_timeseries_, set_parent, bind, modify. cbn [fst snd].
  set (f1 := set_heap_parent _ _).
  assert (H1 : get_dict d' f1 =
            if bool_decide (d = d') then <[ts_name ts := ts]> (get_dict d' f) else get_dict d' f).
  { subst f1. by destruct d, d'. }
  destruct (truthy epoch).
  - destruct (set_epoch_timeseries_frames epoch (TAOne (TRObj ts)) f1) as [(Hr & Hs & Ht) He].
    split; [|by destruct (snd _)].
    rewrite <- H1. by destruct d'.
  - by split.
Qed.

(** C4 (as the code has it): attaching a series to the raw-data collection
    under a name that may already be there binds the name to the new
    series, never raises [DuplicateNameError], and without an epoch
    returns normally. *)
Theorem add_raw_timeseries_rebinds (ts : TimeSeries) (epoch : EpochArg) (f : NWBFile) :
  raw_data (fst (add_raw_timeseries ts epoch f)) = <[ts_name ts := ts]> (raw_data f) /\
  (forall msg, snd (add_raw_timeseries ts epoch f) <> Raise (DuplicateNameError msg)) /\
  snd (add_raw_timeseries ts EANone f) = Ok tt.
Proof.
  destruct (set_timeseries_run RawData RawData ts epoch f) as [Hd He].
  split; [exact Hd|]. split; [|done].
  intros msg Hr. unfold add_raw_timeseries in Hr. by rewrite Hr in He.
Qed.

(** C4, the claim refuted: a second series named like one already attached
    is accepted, and takes the place of the first. *)
Lemma add_raw_timeseries_twice_no_error :
  let a := mkTimeSeries 1 "series1" in
  let b := mkTimeSeries 2 "series1" in
  let f1 := fst (add_raw_timeseries a EANone fresh_file) in
  let r := add_raw_timeseries b EANone f1 in
  raw_data f1 !! "series1" = Some a /\
  is_raw_data f1 b = true /\
  snd r = Ok tt /\
  raw_data (fst r) !! "series1" = Some b /\
  a <> b.
Proof. vm_compute. repeat split; discriminate. Qed.

(** C9 (as the code has it): each of the three operations binds the
    series's name in its own collection and leaves the other two as they
    were, so membership in one collection neither requires nor excludes
    membership in another. *)
Theorem add_series_own_collection (o : ts_op) (d : ts_dict) (f : NWBFile) :
  get_dict d (fst (run_op o f)) =
    if bool_decide (op_target o = d)
    then <[ts_name (op_series o) := op_series o]> (get_dict d f)
    else get_dict d f.
Proof.
  destruct o as [ts e|ts e|ts e]; cbn [run_op op_target op_series];
    apply set_timeseries_run.
Qed.

(** C9, the claim refuted: one series added as raw data and as stimulus
    belongs to both collections. *)
Lemma series_in_two_collections :
  let ts := mkTimeSeries 1 "series1" in
  let f := run_ops [OpAddRaw ts EANone; OpAddStimulus ts EANone] fresh_file in
  is_raw_data f ts = true /\ is_stimulus f ts = true /\
  raw_data f !! "series1" = Some ts /\ stimulus f !! "series1" = Some ts.
Proof. vm_compute. repeat split. Qed.

End NWBFacts.

(** * Properties of the HDF5 rendering (pynwb/io/write.py) *)

Module Hdf5Facts.

Import Hdf5.

(** ** Path resolution *)

(** Induction along the chain of owners. *)
Lemma Container_chain_ind (P : Container -> Prop)
    (Hroot : forall id mro name src file, P (mkContainer id mro name src file None))
    (Hstep : forall id mro name src file parent,
        P parent -> P (mkContainer id mro name src file (Some parent)))
    (c : Container) : P c.
Proof.
  revert c. fix IH 1. intros [id mro name src file [parent|]].
  - apply Hstep, IH.
  - apply Hroot.
Qed.

(** When the loop ends, [top_container] is the last container that had a
    parent: the child of the root, not the root. *)
Lemma climb_top (rel : Container -> Container -> result string) (curr : Container) :
  forall location top_container r,
    climb rel curr location top_container = Ok r ->
    snd r = top_of curr top_container.
Proof.
  induction curr as [id mro name src file|id mro name src file parent IH]
    using Container_chain_ind; intros location top_container r H; cbn in H |- *.
  - by injection H as <-.
  - destruct (rel parent _) as [segment|e]; cbn in H; [|done].
    by apply IH in H.
Qed.

(** A location is returned only if the child of the root is an
    [NWBFile]. *)
Lemma location_needs_file_below_root
    (rel : Container -> Container -> result string) (container : Container) :
  isinstance (top_of container container) "NWBFile" = false ->
  is_ok (get_container_location_via rel container) = false.
Proof.
  intros Htop. unfold get_container_location_via.
  destruct (climb rel container [] container) as [[location top]|e] eqn:E; [|done].
  apply climb_top in E. cbn in E. subst top. cbn. by rewrite Htop.
Qed.

(** No container attached directly to a root file has a location. *)
Lemma no_location_directly_under_root
    (rel : Container -> Container -> result string)
    (id : NWB.obj_id) (mro : list string) (name src : string)
    (file : option NWB.NWBFile) (root : Container) :
  c_parent root = None ->
  mem "NWBFile" mro = false ->
  is_ok (get_container_location_via rel
           (mkContainer id mro name src file (Some root))) = false.
Proof.
  intros Hroot Hmro. apply location_needs_file_below_root.
  destruct root as [? ? ? ? ? p]. cbn in Hroot. subst p. exact Hmro.
Qed.

Lemma no_location_directly_under_root_series1 :
  is_ok (get_container_location series1) = false.
Proof.
  apply (no_location_directly_under_root relative_location 1 ElectricalSeries_mro
           "series1" "" None (file_container scenario_state));
    reflexivity.
Defined.

(** A series of a root file is refused at the first predicate call: class
    [NWBFile] has no attribute [is_rawdata]. *)
Lemma relative_location_under_file (f : NWB.NWBFile) (child : Container) :
  isinstance child "NWBFile" = false ->
  isinstance child "TimeSeries" = true ->
  relative_location (file_container f) child = Raise (AttributeError "is_rawdata").
Proof.
  intros Hf Hts. unfold relative_location, relative_location_via.
  rewrite Hf, Hts. reflexivity.
Qed.

Lemma relative_location_under_file_series1 :
  relative_location (file_container scenario_state) series1
  = Raise (AttributeError "is_rawdata").
Proof.
  apply (relative_location_under_file scenario_state series1); reflexivity.
Defined.

(** With the predicate named as class [NWBFile] names it, the prefix is
    chosen by the first collection, in the order raw data, stimulus,
    template, that has the series's name. *)
Lemma relative_location_prefix (f : NWB.NWBFile) (child : Container) :
  isinstance child "NWBFile" = false ->
  isinstance child "TimeSeries" = true ->
  let ts := NWB.mkTimeSeries (c_id child) (c_name child) in
  relative_location_via "is_raw_data" (file_container f) child =
    join (if NWB.is_raw_data f ts then Some "acquisition/timeseries"
          else if NWB.is_stimulus f ts then Some "stimulus/presentation"
          else if NWB.is_stimulus_template f ts then Some "stimulus/templates"
          else None) [c_name child].
Proof.
  intros Hf Hts ts. unfold relative_location_via. rewrite Hf, Hts. cbn.
  fold ts. destruct (NWB.is_raw_data f ts); [done|]. cbn.
  destruct (NWB.is_stimulus f ts); [done|]. cbn.
  by destruct (NWB.is_stimulus_template f ts).
Qed.

Lemma relative_location_prefix_grating :
  relative_location_via "is_raw_data" (file_container template_state) grating
  = Ok "stimulus/templates/grating".
Proof.
  rewrite (relative_location_prefix template_state grating); reflexivity.
Defined.

(** C3: the resolver does not place a series of the root file as the
    claim says.  As written it fails on every such series, at the call of
    [is_rawdata]; with that predicate resolved, a series of the
    stimulus-template collection goes under "stimulus/templates", whereas
    the layout has "template" under "stimulus" and no "templates". *)
Theorem template_series_resolved_outside_layout :
  relative_location (file_container template_state) grating
    = Raise (AttributeError "is_rawdata") /\
  relative_location_via "is_raw_data" (file_container template_state) grating
    = Ok "stimulus/templates/grating" /\
  (forall G ctime container,
      layout_children G ctime container "stimulus" = ["template"; "presentation"]) /\
  mem "templates" ["template"; "presentation"] = false.
Proof. repeat split. Qed.

(** ** Links between series *)

(** Where the locations of both series resolve (the file is itself owned,
    so the child of the root is a file), a [data] field that is a series
    of the same file is rendered as the soft link "data" to that series's
    dataset, and one of another file as an external link to it. *)
Lemma data_link_in_owned_file (G : Globals) :
  let reference := shelved "a.nwb" 6 "original" in
  let foreign := shelved "b.nwb" 6 "original" in
  let container (data : Container) :=
    mkObj (shelved "a.nwb" 7 "copy")
      (attrs_of (Ref data) (Raw PNone) (PFloat 1) (PFloat 1)) in
  get_container_location reference
    = Ok ("a.nwb", "processing/shank/Clustering/original") /\
  result_map links (time_series G (container reference))
    = Ok [("data", InternalLinkBuilder false "processing/shank/Clustering/original/data")] /\
  result_map links (time_series G (container foreign))
    = Ok [("data", ExternalLinkBuilder "b.nwb" "processing/shank/Clustering/original/data")].
Proof. repeat split. Qed.

(** There, a [timestamps] field that is a series is looked up through the
    attribute [_timeseries]: without that attribute the rendering fails;
    with it, a series of the same file gives the soft link "timestamps",
    and one of another file is refused, since its external link is named
    "data", a name the data already has. *)
Lemma timestamps_link_in_owned_file (G : Globals) :
  let reference := shelved "a.nwb" 6 "original" in
  let foreign := shelved "b.nwb" 6 "original" in
  let container (timestamps : Container) (extra : list (string * Field)) :=
    mkObj (shelved "a.nwb" 7 "copy")
      (attrs_of (Raw (PList [PInt 1])) (Ref timestamps) PNone PNone ++ extra) in
  time_series G (container reference []) = Raise (AttributeError "_timeseries") /\
  result_map links (time_series G (container reference [("_timeseries", Ref reference)]))
    = Ok [("timestamps",
           InternalLinkBuilder false "processing/shank/Clustering/original/timestamps")] /\
  time_series G (container foreign [("_timeseries", Ref foreign)])
    = Raise (DuplicateNameError "data") /\
  result_map links
    (time_series G (mkObj (shelved "a.nwb" 7 "copy")
                      (attrs_of (Raw (PList [PInt 1])) (Ref reference) (PFloat 1) (PFloat 1)
                       ++ [("_timeseries", Ref reference)])))
    = Ok [].
Proof. repeat split. Qed.

(** C2: rendering a series whose data is another series of the same file
    emits no link.  The location of a series of a root file never
    resolves: inside an interface of a module the walk ends with the
    module as [top_container], which is no file; directly under the file
    the first predicate call fails. *)
Theorem shared_data_not_linked (G : Globals) :
  time_series G nested_obj
    = Raise (Exception "highest container not a file: None (None) --> ... --> None (None)") /\
  time_series G series2_obj = Raise (AttributeError "is_rawdata") /\
  get_container_location_via (relative_location_via "is_raw_data") series1
    = Raise (Exception "highest container not a file: None (None) --> ... --> None (None)").
Proof. repeat split. Qed.

(** ** Interval indexing *)

(** The loop body of the indexing pass returns for no entry without a
    record: once the series's path is known, [TimeFinder()] is called
    without the interval list its [__init__] requires. *)
Lemma index_entry_raises (epoch_container : EpochContainer) (finders : Finders)
    (name : string) (entry : EpochTimeSeries) :
  truth (ets_count entry) && truth (ets_idx_start entry) = false ->
  is_ok (index_entry epoch_container finders (name, entry)) = false.
Proof.
  intros H. unfold index_entry. cbn [snd]. rewrite H. cbn [negb].
  by destruct (get_container_location (ets_timeseries entry)).
Qed.

Lemma index_entry_raises_ep1 :
  is_ok (index_entry ep1 [] ("series1", mkEpochTimeSeries PNone PNone series1)) = false.
Proof.
  apply (index_entry_raises ep1 [] "series1" (mkEpochTimeSeries PNone PNone series1)).
  reflexivity.
Defined.

(** An entry with a record is left alone; a record whose start index is 0
    counts as missing, since [count and idx_start] is then falsy. *)
Lemma index_entry_with_record (epoch_container : EpochContainer) (finders : Finders)
    (name : string) (ts : Container) :
  index_entry epoch_container finders (name, mkEpochTimeSeries (PInt 11) (PInt 10) ts)
    = Ok finders /\
  is_ok (index_entry epoch_container finders
           (name, mkEpochTimeSeries (PInt 11) (PInt 0) ts)) = false.
Proof.
  split; [reflexivity|]. by apply index_entry_raises.
Qed.

(** C1: in the scenario (100 samples at rate 1.0 from 0.0, epoch
    [10.0, 20.0]) the record the claim describes is (10, 11), and the code
    computes none: rendering the file raises in the indexing pass,
    whatever the other renderers do, a [TimeFinder] returns [None] on
    every chunk, and the record kept by the epoch stays empty. *)
Theorem interval_record_not_computed :
  spec_interval (regular_grid 100 0 1) 10 20 = (10, 11)%nat /\
  (forall G ctime epoch_process ts_process module_process,
      is_ok (nwb_file G ctime epoch_process ts_process module_process scenario_file)
      = false) /\
  (forall G ctime ts_process module_process,
      nwb_file G ctime (fun _ => Ok empty_group) ts_process module_process scenario_file
      = Raise (AttributeError "is_rawdata")) /\
  (forall finder chunk, TimeFinder_call finder chunk = PNone) /\
  NWB.ep_timeseries <$> (NWB.heap_epoch scenario_state !! 1)
    = Some [("series1", NWB.mkEpochTimeSeries (NWB.mkTimeSeries 1 "series1") None None)].
Proof.
  split; [by vm_compute|]. split; [|repeat split].
  intros G ctime epoch_process ts_process module_process.
  unfold nwb_file. cbn. destruct (epoch_process ep1) as [b|e]; [|done]. cbn.
  by destruct (add_group "ep1" b empty_group).
Qed.

(** ** The writer *)

(** [write] looks at the groups of the root builder only. *)
Lemma write_ignores_root_level {C} (renderer_process : C -> result GroupBuilder)
    (container : C) (file_path : string) :
  write renderer_process container file_path
  = write (fun c => result_map (fun b => group_of (groups b)) (renderer_process c))
      container file_path.
Proof.
  unfold write. by destruct (renderer_process container) as [[gs ds ats ls]|e].
Qed.

(** C6: a dataset of the root of the Builder tree is not committed at
    all, before or after the links: writing [small_builder] creates the
    group, its dataset and then the soft link, and never the root dataset
    "session_description". *)
Theorem root_dataset_not_committed :
  has_key "session_description" (datasets small_builder) = true /\
  write (fun b : GroupBuilder => Ok b) small_builder "out.nwb"
    = ([OpenFile "out.nwb" "w";
        CreateGroup "acquisition";
        CreateDataset "acquisition/data" (dataset_of (PInt 1));
        CreateSoftLink "acquisition/alias" "acquisition/data";
        CloseFile], Ok tt) /\
  path_exists "session_description"
    (fst (write (fun b : GroupBuilder => Ok b) small_builder "out.nwb")) = false.
Proof. repeat split. Qed.

(** What the order of the calls is: the groups, datasets and attributes
    that [write] does commit all come before the first link. *)
Lemma write_builder_structural (b : GroupBuilder) :
  forall path, forallb is_structural_op (fst (write_builder path b)) = true.
Proof.
  revert b. fix IH 1. intros [gs ds ats ls] path. cbn [write_builder fst forallb].
  rewrite !forallb_app. cbn [andb].
  assert (Hds : forallb is_structural_op
                  (map (fun d => CreateDataset (child_path path (fst d)) (snd d)) ds) = true)
    by (clear; induction ds; [done|by cbn]).
  assert (Hats : forallb is_structural_op
                   (map (fun a => SetAttribute path (fst a) (snd a)) ats) = true)
    by (clear; induction ats; [done|by cbn]).
  rewrite Hds, Hats. cbn [andb].
  induction gs as [|[name g] gs IHgs]; [done|].
  cbn [fst]. rewrite forallb_app, (IH g). exact IHgs.
Qed.

Lemma write_groups_structural (gs : list (string * GroupBuilder)) :
  forall ops links_, exists structural,
    fst (write_groups gs ops links_) = ops ++ structural /\
    forallb is_structural_op structural = true.
Proof.
  induction gs as [|[name g] gs IH]; intros ops links_; cbn [write_groups].
  - exists []. by rewrite app_nil_r.
  - destruct (IH (ops ++ fst (write_group name (groups g) (datasets g) (attributes g) (links g)))
                (update links_ (snd (write_group name (groups g) (datasets g)
                                       (attributes g) (links g)))))
      as (s & Hs & Hall).
    exists (fst (write_group name (groups g) (datasets g) (attributes g) (links g)) ++ s).
    split; [by rewrite Hs, app_assoc|].
    rewrite forallb_app, Hall. unfold write_group.
    by rewrite write_builder_structural.
Qed.

Lemma write_links_only_links (ls : list (string * LinkBuilder)) :
  forall ops, exists link_ops,
    fst (write_links ls ops) = ops ++ link_ops /\
    forallb is_link_op link_ops = true.
Proof.
  induction ls as [|[link_name [[|] target|file_path target]] ls IH]; intros ops;
    cbn [write_links].
  - exists []. by rewrite app_nil_r.
  - destruct (path_exists target ops).
    + destruct (IH (ops ++ [CreateHardLink link_name target])) as (l & Hl & Hall).
      exists (CreateHardLink link_name target :: l).
      split; [by rewrite Hl, <- app_assoc|done].
    + exists []. by rewrite app_nil_r.
  - destruct (IH (ops ++ [CreateSoftLink link_name target])) as (l & Hl & Hall).
    exists (CreateSoftLink link_name target :: l).
    split; [by rewrite Hl, <- app_assoc|done].
  - destruct (IH (ops ++ [CreateExternalLink link_name file_path target])) as (l & Hl & Hall).
    exists (CreateExternalLink link_name file_path target :: l).
    split; [by rewrite Hl, <- app_assoc|done].
Qed.

Lemma write_structural_before_links {C} (renderer_process : C -> result GroupBuilder)
    (container : C) (file_path : string) :
  exists structural link_ops closing,
    fst (write renderer_process container file_path)
      = OpenFile file_path "w" :: structural ++ link_ops ++ closing /\
    forallb is_structural_op structural = true /\
    forallb is_link_op link_ops = true /\
    (closing = [] \/ closing = [CloseFile]).
Proof.
  unfold write. destruct (renderer_process container) as [builder|e].
  - destruct (write_groups_structural (groups builder) [OpenFile file_path "w"] [])
      as (s & Hs & Hall).
    destruct (write_groups (groups builder) [OpenFile file_path "w"] []) as [ops links_].
    cbn [fst] in Hs. subst ops.
    destruct (write_links_only_links links_ ([OpenFile file_path "w"] ++ s))
      as (l & Hl & Hlall).
    exists s, l.
    destruct (write_links links_ ([OpenFile file_path "w"] ++ s)) as [ops [[]|e]];
      cbn [fst] in Hl |- *; subst ops.
    + exists [CloseFile]. split; [by rewrite <- !app_assoc|auto].
    + exists []. split; [by rewrite app_nil_r|auto].
  - exists [], [], []. auto.
Qed.

(** ** The rendering protocol *)

Section Protocol.

Context {O B : Type}.
Variable mro_of : O -> list string.
Variable procedures : list (string * (O -> result B)).
Variable deep_update : B -> B -> result B.

Abbreviation registered := (registered_for procedures).

Lemma registered_for_class (prop : string) (e : string * (O -> result B)) :
  e ∈ registered prop <-> e ∈ procedures /\ fst e = prop.
Proof.
  unfold registered_for. rewrite !list_elem_of_In, filter_In.
  by rewrite String.eqb_eq.
Qed.

Lemma collected_class (l : list string) (e : string * (O -> result B)) :
  e ∈ flat_map registered l <-> e ∈ procedures /\ fst e ∈ l.
Proof.
  rewrite list_elem_of_In, in_flat_map. split.
  - intros (prop & Hprop & He). apply list_elem_of_In, registered_for_class in He as [He <-].
    split; [done|by apply list_elem_of_In].
  - intros [He Hl]. exists (fst e). split; [by apply list_elem_of_In|].
    by apply list_elem_of_In, registered_for_class.
Qed.

(** In what is collected over [before ++ cls :: after], a procedure of a
    class of [after] that is not in the front part comes later than
    any procedure of [cls], when [cls] is not repeated in [after]. *)
Lemma collected_order (before after : list string) (cls : string)
    (i j : nat) (e1 e2 : string * (O -> result B)) :
  fst e1 ∉ before -> fst e1 <> cls -> cls ∉ after -> fst e2 = cls ->
  flat_map registered (before ++ cls :: after) !! i = Some e1 ->
  flat_map registered (before ++ cls :: after) !! j = Some e2 ->
  j < i.
Proof.
  intros H1b H1c Hca H2 Hi Hj.
  rewrite flat_map_app in Hi, Hj. cbn [flat_map] in Hi, Hj.
  rewrite app_assoc in Hi, Hj.
  set (front := flat_map registered before ++ registered cls) in *.
  assert (Hfront_i : length front <= i).
  { destruct (decide (i < length front)) as [Hlt|]; [|lia].
    rewrite lookup_app_l in Hi by done.
    apply list_elem_of_lookup_2 in Hi. subst front.
    apply elem_of_app in Hi as [Hi|Hi].
    - apply collected_class in Hi as [_ Hi]. done.
    - apply registered_for_class in Hi as [_ Hi]. done. }
  assert (Hfront_j : j < length front).
  { destruct (decide (j < length front)) as [|Hge]; [done|].
    rewrite lookup_app_r in Hj by lia.
    apply list_elem_of_lookup_2, collected_class in Hj as [_ Hj].
    rewrite H2 in Hj. done. }
  lia.
Qed.

Lemma elem_of_rev (x : string) (l : list string) : x ∈ rev l <-> x ∈ l.
Proof. rewrite !list_elem_of_In. symmetry. apply in_rev. Qed.

Lemma merge_into_foldM (rest : list B) (ret : B) :
  merge_into deep_update ret rest = foldM deep_update rest ret.
Proof.
  revert ret. induction rest as [|b rest IH]; intros ret; [done|].
  cbn. destruct (deep_update ret b); [apply IH|done].
Qed.

(** For a container whose class has the ancestor chain [chain] (most
    derived first) below [object], what is collected for it is exactly the
    procedures registered for a class of the chain, those of a more basic
    class before those of a class derived from it. *)
Lemma collect_base_to_derived (container : O) (chain : list string) (root : string) :
  mro_of container = chain ++ [root] ->
  NoDup chain ->
  collect mro_of procedures container = flat_map registered (rev chain) /\
  (forall e, e ∈ collect mro_of procedures container <->
             e ∈ procedures /\ fst e ∈ chain) /\
  (forall derived base between above below p q i j,
      chain = below ++ derived :: between ++ base :: above ->
      collect mro_of procedures container !! i = Some (derived, p) ->
      collect mro_of procedures container !! j = Some (base, q) ->
      j < i).
Proof.
  intros Hmro Hnd.
  assert (Hcollect : collect mro_of procedures container
                     = flat_map registered (rev chain)).
  { unfold collect, get_object_properties. by rewrite Hmro, removelast_last. }
  split; [done|]. rewrite Hcollect. split.
  - intros e. rewrite collected_class. by rewrite elem_of_rev.
  - intros derived base between above below p q i j Hchain Hi Hj.
    subst chain. rewrite !rev_app_distr in Hi, Hj. cbn [rev] in Hi, Hj.
    rewrite rev_app_distr in Hi, Hj. cbn [rev] in Hi, Hj.
    rewrite <- !app_assoc in Hi, Hj. cbn [app] in Hi, Hj.
    apply NoDup_app in Hnd as (_ & Hbelow & Hnd).
    apply NoDup_cons in Hnd as [Hd Hnd].
    apply NoDup_app in Hnd as (Hnb & Hdisj & Hnd').
    apply NoDup_cons in Hnd' as [Hb _].
    eapply (collected_order (rev above) (rev between ++ derived :: rev below)
              base i j (derived, p) (base, q)); try done; cbn [fst].
    + rewrite elem_of_rev. intros Hin. apply Hd.
      apply elem_of_app. right. by right.
    + intros ->. apply Hd. apply elem_of_app. right. by left.
    + rewrite elem_of_app, elem_of_cons, !elem_of_rev.
      intros [Hin|[->|Hin]].
      * by apply (Hdisj base); [|left].
      * apply Hd. apply elem_of_app. right. by left.
      * apply (Hbelow base Hin). right. apply elem_of_app. right. by left.
Qed.

(** Where [HDFContainerRenderer] is bound, [process] is the call of the base
    class followed by the merge into the first result. *)
Lemma process_where_name_bound (names : list string) (container : O) :
  mem "HDFContainerRenderer" names = true ->
  process mro_of procedures deep_update names container
  = rbind (base_process mro_of procedures container)
      (fun result => match result with
                     | [] => Raise (IndexError "list index out of range")
                     | ret :: rest => foldM deep_update rest ret
                     end).
Proof.
  intros H. unfold process, global_name. rewrite H. cbn [rbind].
  destruct (base_process mro_of procedures container) as [[|ret rest]|e]; try done.
  cbn [rbind]. apply merge_into_foldM.
Qed.

(** C7: as the module is, [process] renders nothing.  Whatever the
    container, the procedures registered and the merge, it raises
    [NameError] at [super(HDFContainerRenderer, self)], a name nothing
    binds (the class is [Hdf5ContainerRenderer]), before a procedure is
    collected, run or merged. *)
Theorem process_raises_name_error (container : O) :
  process mro_of procedures deep_update write_globals container
  = Raise (NameError "name 'HDFContainerRenderer' is not defined").
Proof. reflexivity. Qed.

End Protocol.

(** ** Rendering a file twice *)

Lemma rbind_result_map {A B C} (f : A -> B) (r : result A) (k : B -> result C) :
  rbind (result_map f r) k = rbind r (fun x => k (f x)).
Proof. by destruct r. Qed.

Lemma rbind_commutes {A B C} (g : B -> C) (r : result A) (k1 : A -> result B)
    (k2 : A -> result C) :
  (forall x, k2 x = result_map g (k1 x)) ->
  rbind r k2 = result_map g (rbind r k1).
Proof. intros H. destruct r; [apply H|done]. Qed.

Section Redate.

Variable ctime : string.

Abbreviation commutes := (commutes_redate ctime).

Lemma has_key_redate (name : string) (ds : list (string * DatasetBuilder)) :
  has_key name
    (map (fun d => if String.eqb (fst d) "file_create_date"
                   then (fst d, dataset_of (PList [PStr ctime])) else d) ds)
  = has_key name ds.
Proof.
  unfold has_key. induction ds as [|[k v] ds IH]; [done|].
  cbn [map fst assoc]. destruct (String.eqb k "file_create_date"); cbn [assoc];
    destruct (String.eqb name k); auto.
Qed.

Lemma name_taken_redate (name : string) (b : GroupBuilder) :
  name_taken name (redate ctime b) = name_taken name b.
Proof.
  destruct b as [gs ds ats ls]. unfold name_taken. cbn.
  by rewrite has_key_redate.
Qed.

Lemma add_group_commutes (name : string) (g : GroupBuilder) :
  commutes (add_group name g).
Proof.
  intros b. unfold add_group. rewrite name_taken_redate.
  destruct (name_taken name b); [done|]. by destruct b.
Qed.

Lemma get_group_redate (name : string) (b : GroupBuilder) :
  get_group name (redate ctime b) = get_group name b.
Proof. by destruct b. Qed.

Lemma put_group_redate (name : string) (g b : GroupBuilder) :
  put_group name g (redate ctime b) = redate ctime (put_group name g b).
Proof. by destruct b. Qed.

(** Work on a proper subgroup never meets the root datasets. *)
Lemma with_path_commutes (path : list string)
    (body : GroupBuilder -> result GroupBuilder) :
  path <> [] \/ commutes body ->
  commutes (with_path path body).
Proof.
  intros H b. unfold commutes_redate in *. destruct path as [|name path]; cbn [with_path].
  - destruct H as [H|H]; [done|apply H].
  - rewrite get_group_redate. destruct (get_group name b) as [g|e]; [|done]. cbn.
    destruct (with_path path body g) as [g'|e]; [|done]. cbn.
    by rewrite put_group_redate.
Qed.

Lemma foldM_commutes {A} (step : GroupBuilder -> A -> result GroupBuilder) (l : list A) :
  (forall x, commutes (fun b => step b x)) ->
  commutes (foldM step l).
Proof.
  intros Hstep. induction l as [|x l IH]; intros b; [done|].
  cbn [foldM]. rewrite (Hstep x b). destruct (step b x) as [b'|e]; [|done].
  cbn. apply IH.
Qed.

Variable G : Globals.
Variable epoch_process : EpochContainer -> result GroupBuilder.
Variable ts_process : Obj -> result GroupBuilder.
Variable module_process : Obj -> result GroupBuilder.

Lemma render_epochs_redate (eps : list (string * EpochContainer)) :
  forall b finders name,
    foldM (render_epoch epoch_process) eps (redate ctime b, finders, name)
    = result_map (fun st => (redate ctime (fst (fst st)), snd (fst st), snd st))
        (foldM (render_epoch epoch_process) eps (b, finders, name)).
Proof.
  induction eps as [|[n ep] eps IH]; intros b finders name; [done|].
  cbn [foldM render_epoch].
  destruct (epoch_process ep) as [epoch_builder|e]; [|done]. cbn [rbind].
  rewrite (with_path_commutes ["epochs"] (add_group n epoch_builder)) by (by left).
  destruct (with_path ["epochs"] (add_group n epoch_builder) b) as [b'|e]; [|done].
  cbn [rbind result_map].
  destruct (foldM (index_entry ep) (epc_timeseries ep) finders) as [finders'|e]; [|done].
  cbn [rbind]. apply IH.
Qed.

Lemma attach_finders_commutes (finders : Finders) :
  commutes (fun b => foldM attach_finder finders b).
Proof. intros b. by destruct finders. Qed.

Lemma render_modality_commutes (name : option string)
    (item : string * list (string * Obj)) :
  commutes (fun b => render_modality G ts_process name b item).
Proof.
  destruct item as [modality ts_containers]. intros b. unfold render_modality.
  destruct (assoc modality (_ts_locations G)) as [location|]; [|done]. cbn [rbind].
  apply with_path_commutes. right. apply foldM_commutes.
  intros ts_item sb. destruct (ts_process (snd ts_item)) as [g|e]; [|done].
  cbn [rbind]. destruct name as [name|]; [apply add_group_commutes|done].
Qed.

Lemma render_modules_commutes (container : FileContainer) :
  commutes (render_modules module_process container).
Proof. apply with_path_commutes. by left. Qed.

Lemma nwb_file_contents_commutes (container : FileContainer) :
  commutes (nwb_file_contents G epoch_process ts_process module_process container).
Proof.
  intros b. unfold nwb_file_contents.
  rewrite get_group_redate. apply rbind_commutes. intros _.
  rewrite render_epochs_redate, rbind_result_map. apply rbind_commutes.
  intros [[b1 finders] name]. cbn [fst snd].
  rewrite (attach_finders_commutes finders b1), rbind_result_map.
  apply rbind_commutes. intros b2.
  rewrite (foldM_commutes (render_modality G ts_process name)
             (fc_timeseries container) (render_modality_commutes name) b2).
  rewrite rbind_result_map. apply rbind_commutes. intros b3.
  apply render_modules_commutes.
Qed.

End Redate.

Lemma nwb_file_layout_redate (G : Globals) (t1 t2 : string) (container : FileContainer) :
  nwb_file_layout G t2 container
  = result_map (redate t2) (nwb_file_layout G t1 container).
Proof. reflexivity. Qed.

(** Past the lookups of the global names, the rendering of a file at the
    clock reading [t2] is its rendering at the reading [t1] with the value
    of the root dataset "file_create_date", and nothing else, replaced; the
    two fail together, with the same exception. *)
Lemma nwb_file_redate (G : Globals) (t1 t2 : string)
    (epoch_process : EpochContainer -> result GroupBuilder)
    (ts_process module_process : Obj -> result GroupBuilder)
    (container : FileContainer) :
  nwb_file G t2 epoch_process ts_process module_process container
  = result_map (redate t2)
      (nwb_file G t1 epoch_process ts_process module_process container).
Proof.
  unfold nwb_file. rewrite (nwb_file_layout_redate G t1 t2).
  destruct (nwb_file_layout G t1 container) as [b|e]; [|done].
  cbn [rbind result_map]. apply nwb_file_contents_commutes.
Qed.

(** ** The bodies past the lookups of global names *)

(** Where the names a function evaluates are bound, the function under
    these names is the definition that leaves the lookups out. *)
Lemma foldM_ext {S A} (f g : S -> A -> result S) (l : list A) (s : S) :
  (forall s x, f s x = g s x) -> foldM f l s = foldM g l s.
Proof.
  intros H. revert s. induction l as [|x l IH]; intros s; [done|].
  cbn [foldM]. rewrite H. destruct (g s x); [apply IH|done].
Qed.

Lemma write_links_in_bound (names : list string) (ls : list (string * LinkBuilder))
    (ops : list backend_op) :
  mem "h5py" names = true ->
  write_links_in names path_exists ls ops = write_links ls ops.
Proof.
  intros H. revert ops.
  induction ls as [|[name [[|] path|file_path path]] ls IH]; intros ops;
    cbn [write_links_in write_links]; unfold global_name; rewrite ?H; try done.
  by destruct (path_exists path ops).
Qed.

Lemma get_container_location_in_bound (names : list string)
    (rel : Container -> Container -> result string) (container : Container) :
  mem "_Hdf5ContainerRenderer__relative_location" names = true ->
  mem "_posixpath" names = true ->
  get_container_location_in names rel container = get_container_location_via rel container.
Proof.
  intros H1 H2. unfold get_container_location_in, get_container_location_via, global_name.
  by rewrite H1, H2.
Qed.

Lemma nwb_file_in_bound (names : list string) (G : Globals) (ctime : string)
    (epoch_process : EpochContainer -> result GroupBuilder)
    (ts_process module_process : Obj -> result GroupBuilder)
    (container : FileContainer) :
  Forall (fun name => mem name names = true)
    ["GroupBulder"; "GroupBuilder"; "DatasetBuilder"; "FILE_VERSION_STR"; "np"; "time";
     "h5py"; "EpochHdf5Renderer"; "_ts_locations"; "_posixpath";
     "_Hdf5ContainerRenderer__relative_location"] ->
  nwb_file_in names relative_location G ctime epoch_process ts_process module_process container
  = nwb_file G ctime epoch_process ts_process module_process container.
Proof.
  intros H. repeat (apply Forall_cons in H as [? H]).
  assert (Hentry : forall ep fs entry,
             index_entry_in names relative_location ep fs entry = index_entry ep fs entry).
  { intros ep fs entry. unfold index_entry_in, index_entry.
    by rewrite get_container_location_in_bound. }
  assert (Hepoch : forall st item,
             render_epoch_in names relative_location epoch_process st item
             = render_epoch epoch_process st item).
  { intros [[b fs] n] [name ep]. unfold render_epoch_in, render_epoch.
    by rewrite (foldM_ext _ _ _ _ (Hentry ep)). }
  unfold nwb_file_in, nwb_file, nwb_file_contents, global_name.
  repeat match goal with E : mem _ names = true |- _ => rewrite !E; clear E end.
  cbn [rbind].
  destruct (nwb_file_layout G ctime container) as [builder|e]; [|done]. cbn [rbind].
  destruct (get_group "epochs" builder) as [g|e]; [|done]. cbn [rbind].
  rewrite (foldM_ext _ _ _ _ Hepoch).
  destruct (foldM (render_epoch epoch_process) (fc_epochs container) (builder, [], None))
    as [[[b fs] n]|e]; [|done]. cbn [rbind].
  destruct (foldM attach_finder fs b) as [b'|e]; [|done]. cbn [rbind].
  by rewrite (foldM_ext _ (render_modality G ts_process n) _ _ (fun _ _ => eq_refl)).
Qed.

(** C8: as the module is, no rendering of a file returns a tree, at
    whatever clock reading and whatever the file holds.  Called directly,
    [nwb_file] raises [NameError] on its first statement, [GroupBulder()];
    called through [process], as the writer calls it, the rendering raises
    [NameError] at the [super] call and [nwb_file] is not reached. *)
Theorem rendering_twice_no_tree
    (rel : Container -> Container -> result string) (G : Globals) (t1 t2 : string)
    (epoch_process : EpochContainer -> result GroupBuilder)
    (ts_process module_process : Obj -> result GroupBuilder)
    (deep_update : GroupBuilder -> GroupBuilder -> result GroupBuilder)
    (container : FileContainer) :
  let nwb_file_ ctime :=
    nwb_file_in write_globals rel G ctime epoch_process ts_process module_process in
  let render ctime :=
    process (fun c => c_mro (o_self (fc_obj c))) (NwbFileHdf5Renderer (nwb_file_ ctime))
      deep_update write_globals container in
  nwb_file_ t1 container = Raise (NameError "name 'GroupBulder' is not defined") /\
  nwb_file_ t2 container = Raise (NameError "name 'GroupBulder' is not defined") /\
  render t1 = Raise (NameError "name 'HDFContainerRenderer' is not defined") /\
  render t2 = Raise (NameError "name 'HDFContainerRenderer' is not defined").
Proof. repeat split. Qed.

End Hdf5Facts.

(** * Further properties of NWBFile (pynwb/file.py) *)

Module NWBMore.

Import NWB.
Local Open Scope py_scope.

(** ** Resolution of epochs and series *)

Lemma bind_run {S A B} (m : M S A) (k : A -> M S B) (s : S) :
  bind m k s = match m s with
               | (s', Ok a) => k a s'
               | (s', Raise e) => (s', Raise e)
               end.
Proof. reflexivity. Qed.

(** Resolving a reference reads the state and leaves it as it is. *)
Lemma get_epoch_reads (r : EpochRef) (f : NWBFile) : fst (get_epoch_ r f) = f.
Proof.
  destruct r as [s|e|]; cbn; [|done..]. by destruct (epochs f !! s).
Qed.

Lemma get_timeseries_reads (r : TsRef) (f : NWBFile) : fst (get_timeseries_ r f) = f.
Proof.
  destruct r as [s|ts|]; cbn; [|done..].
  destruct (raw_data f !! s); [done|].
  destruct (stimulus f !! s); [done|].
  by destruct (stimulus_template f !! s).
Qed.

Lemma comprehension_reads {A B} (k : A -> M NWBFile B) (l : list A) :
  (forall a f, fst (k a f) = f) ->
  forall f, fst (comprehension l k f) = f.
Proof.
  intros Hk. induction l as [|x l IH]; intros f; [done|].
  cbn [comprehension]. rewrite bind_run.
  specialize (Hk x f). destruct (k x f) as [f1 [y|e]]; cbn in Hk; subst f1; [|done].
  rewrite bind_run. specialize (IH f).
  destruct (comprehension l k f) as [f2 [ys|e]]; cbn in IH; by subst f2.
Qed.

Lemma add_all_returns (eps : list obj_id) (tss : list TimeSeries) (f : NWBFile) :
  snd (for_each eps (fun ep => for_each tss (fun ts => add_timeseries ep ts)) f) = Ok tt.
Proof.
  revert f. induction eps as [|ep eps IH]; intros f; [done|].
  cbn [for_each]. rewrite bind_run.
  assert (Hin : forall g, snd (for_each tss (fun ts => add_timeseries ep ts) g) = Ok tt).
  { clear. induction tss as [|ts tss IH]; intros g; [done|].
    cbn [for_each]. rewrite bind_run. cbn. apply IH. }
  specialize (Hin f).
  destruct (for_each tss (fun ts => add_timeseries ep ts) f) as [f1 [[]|e]];
    cbn in Hin; [apply IH|done].
Qed.

(** The lists of epochs and of series are resolved before any epoch is
    touched. *)
Lemma resolve_epochs_reads (epoch : EpochArg) (f : NWBFile) :
  fst (match epoch with
       | EAList l => comprehension l get_epoch_
       | EAOne r => e <- get_epoch_ r ;; ret [e]
       | EANone | EATuple _ => e <- get_epoch_ EROther ;; ret [e]
       end f) = f.
Proof.
  destruct epoch as [|r|l|l]; try done.
  - rewrite bind_run. pose proof (get_epoch_reads r f) as H.
    destruct (get_epoch_ r f) as [f1 [e|e]]; cbn in H |- *; by subst.
  - by apply comprehension_reads, get_epoch_reads.
Qed.

Lemma resolve_series_reads (timeseries : TsArg) (f : NWBFile) :
  fst (match timeseries with
       | TAList l => comprehension l get_timeseries_
       | TAOne r => t <- get_timeseries_ r ;; ret [t]
       | TATuple _ => t <- get_timeseries_ TROther ;; ret [t]
       end f) = f.
Proof.
  destruct timeseries as [r|l|l]; try done.
  - rewrite bind_run. pose proof (get_timeseries_reads r f) as H.
    destruct (get_timeseries_ r f) as [f1 [e|e]]; cbn in H |- *; by subst.
  - by apply comprehension_reads, get_timeseries_reads.
Qed.

(** X1: [set_epoch_timeseries] is all or nothing.  When it raises (an
    unknown epoch or series name, a value of a wrong type, a tuple), no
    epoch has been given any series: the state is the one it started
    from. *)
Theorem set_epoch_timeseries_all_or_nothing
    (epoch : EpochArg) (timeseries : TsArg) (f : NWBFile) :
  is_ok (snd (set_epoch_timeseries epoch timeseries f)) = false ->
  fst (set_epoch_timeseries epoch timeseries f) = f.
Proof.
  unfold set_epoch_timeseries. rewrite bind_run.
  pose proof (resolve_epochs_reads epoch f) as He.
  destruct (match epoch with
            | EAList l => comprehension l get_epoch_
            | EAOne r => e <- get_epoch_ r ;; ret [e]
            | EANone | EATuple _ => e <- get_epoch_ EROther ;; ret [e]
            end f) as [f1 [eps|e]]; cbn in He; subst f1; [|done].
  rewrite bind_run.
  pose proof (resolve_series_reads timeseries f) as Ht.
  destruct (match timeseries with
            | TAList l => comprehension l get_timeseries_
            | TAOne r => t <- get_timeseries_ r ;; ret [t]
            | TATuple _ => t <- get_timeseries_ TROther ;; ret [t]
            end f) as [f2 [tss|e]]; cbn in Ht; subst f2; [|done].
  intros H. by rewrite add_all_returns in H.
Qed.

Lemma set_epoch_timeseries_all_or_nothing_unknown :
  let f := fst (create_epoch "ep1" 10 20 [] None fresh_file) in
  fst (set_epoch_timeseries (EAList [ERName "ep1"; ERName "ep2"])
         (TAOne (TRObj (mkTimeSeries 1 "series1"))) f) = f.
Proof.
  intros f.
  apply (set_epoch_timeseries_all_or_nothing (EAList [ERName "ep1"; ERName "ep2"])
           (TAOne (TRObj (mkTimeSeries 1 "series1"))) f).
  vm_compute. reflexivity.
Defined.

(** X2: attaching a series is not undone by a failing epoch.  With the name
    of an epoch the file does not have, each of [add_raw_timeseries],
    [add_stimulus] and [add_stimulus_template] raises [KeyError], and yet
    the series is in the collection and its parent is the file. *)
Theorem series_attached_although_epoch_unknown
    (d : ts_dict) (ts : TimeSeries) (s : string) (f : NWBFile) :
  s <> "" ->
  epochs f !! s = None ->
  let r := set_timeseries_ d ts (EAOne (ERName s)) f in
  snd r = Raise (KeyError ("Epoch '" +:+ s +:+ "' not found")) /\
  get_dict d (fst r) !! ts_name ts = Some ts /\
  heap_parent (fst r) !! ts_id ts = Some (self_id f).
Proof.
  intros Hs Hnone.
  assert (Ht : negb (String.eqb s "") = true).
  { apply negb_true_iff, String.eqb_neq, Hs. }
  assert (He : forall m g, epochs (set_heap_parent m (set_dict d g f)) = epochs f)
    by (intros; by destruct d).
  cbv beta iota zeta delta [set_timeseries_ set_parent set_epoch_timeseries bind modify
                            get raise ret truthy get_epoch_].
  rewrite Ht. cbv beta iota. rewrite He, Hnone. cbn [fst snd].
  split; [done|]. split; destruct d; cbn; apply lookup_insert_eq.
Qed.

Lemma series_attached_although_epoch_unknown_raw :
  let r := add_raw_timeseries (mkTimeSeries 1 "series1") (EAOne (ERName "ep9")) fresh_file in
  snd r = Raise (KeyError "Epoch 'ep9' not found") /\
  raw_data (fst r) !! "series1" = Some (mkTimeSeries 1 "series1") /\
  heap_parent (fst r) !! 1 = Some 0.
Proof.
  apply (series_attached_although_epoch_unknown RawData (mkTimeSeries 1 "series1")
           "ep9" fresh_file); [discriminate|reflexivity].
Defined.

(** X3: an epoch created under a name is the one [get_epoch] finds under it;
    it has the times and tags it was given, no series yet, and the file as
    parent; the epochs of other names are as before (an earlier epoch of
    the same name is no longer reachable by name), and a name the file
    never had is refused with [KeyError]. *)
Theorem create_epoch_then_get_epoch
    (name : string) (start stop : Q) (tags : list string)
    (description : option string) (f : NWBFile) :
  let r := create_epoch name start stop tags description f in
  snd r = Ok (next_id f) /\
  get_epoch (ERName name) (fst r) = (fst r, Ok (next_id f)) /\
  heap_epoch (fst r) !! next_id f = Some (mkEpoch name start stop tags description []) /\
  heap_parent (fst r) !! next_id f = Some (self_id f) /\
  (forall other, other <> name ->
     get_epoch (ERName other) (fst r)
     = (fst r, match epochs f !! other with
               | Some e => Ok e
               | None => Raise (KeyError ("Epoch '" +:+ other +:+ "' not found"))
               end)).
Proof.
  cbv zeta. unfold create_epoch. rewrite !bind_run. cbn.
  rewrite !lookup_insert_eq. repeat split.
  intros other Hne. unfold get_epoch, get_epoch_, bind, get. cbn.
  rewrite lookup_insert_ne by done. by destruct (epochs f !! other).
Qed.

(** X4: a name that is in the raw data and among the stimuli resolves to the
    raw series, in whichever order the two were added; [set_epoch_timeseries]
    called with the name attaches that one. *)
Theorem raw_data_shadows_stimulus_by_name (a b : TimeSeries) (f : NWBFile) :
  ts_name a = ts_name b ->
  let f1 := fst (add_stimulus b EANone (fst (add_raw_timeseries a EANone f))) in
  let f2 := fst (add_raw_timeseries a EANone (fst (add_stimulus b EANone f))) in
  get_timeseries_ (TRName (ts_name b)) f1 = (f1, Ok a) /\
  get_timeseries_ (TRName (ts_name b)) f2 = (f2, Ok a).
Proof.
  intros Hname. cbv zeta. unfold get_timeseries_. rewrite !bind_run. cbn.
  rewrite <- Hname, !lookup_insert_eq. done.
Qed.

Lemma raw_data_shadows_stimulus_by_name_series1 :
  let a := mkTimeSeries 1 "series1" in
  let b := mkTimeSeries 2 "series1" in
  let f1 := fst (add_stimulus b EANone (fst (add_raw_timeseries a EANone fresh_file))) in
  get_timeseries_ (TRName "series1") f1 = (f1, Ok a).
Proof.
  intros a b f1.
  exact (proj1 (raw_data_shadows_stimulus_by_name a b fresh_file eq_refl)).
Defined.

(** ** Electrode groups *)

(** X5: indices are not kept apart when a name is registered again.  The
    group registered under a name the file already has gets the current
    number of names as its new index, and so does the next group of a new
    name: the two end up with one index. *)
Theorem reregistered_group_shares_index (g g' : ElectrodeGroup) (i : nat) (f : NWBFile) :
  ec_electrode_idx f !! eg_name g = Some i ->
  ec_electrode_idx f !! eg_name g' = None ->
  let r1 := set_electrode_group g f in
  let r2 := set_electrode_group g' (fst r1) in
  snd r1 = Ok (size (ec_electrode_idx f)) /\
  snd r2 = Ok (size (ec_electrode_idx f)) /\
  eg_name g <> eg_name g' /\
  snd (get_electrode_group_idx (ByObject g) (fst r2)) = Ok (Some (size (ec_electrode_idx f))) /\
  snd (get_electrode_group_idx (ByObject g') (fst r2)) = Ok (Some (size (ec_electrode_idx f))).
Proof.
  intros Hg Hg'. cbv zeta.
  assert (Hne : eg_name g <> eg_name g') by congruence.
  rewrite !NWBFacts.set_electrode_group_run. cbn [fst snd].
  assert (Hsz : size (ec_electrode_idx (registered g f)) = size (ec_electrode_idx f)).
  { rewrite NWBFacts.registered_idx. by eapply map_size_insert_Some. }
  rewrite Hsz. repeat split; try done.
  - rewrite NWBFacts.get_electrode_group_idx_run. cbn [snd group_key].
    rewrite (NWBFacts.registered_idx g' (registered g f)), lookup_insert_ne by done.
    by rewrite NWBFacts.registered_idx, lookup_insert_eq.
  - rewrite NWBFacts.get_electrode_group_idx_run. cbn [snd group_key].
    by rewrite (NWBFacts.registered_idx g' (registered g f)), lookup_insert_eq, Hsz.
Qed.

Lemma reregistered_group_shares_index_example :
  let g (i : nat) (s : string) := mkElectrodeGroup i (inl s) [] "" "" "" (inl 0%Q) in
  let f := fst (register_all [g 1 "tetrode1"; g 2 "tetrode2"] fresh_file) in
  let f' := fst (set_electrode_group (g 4 "shank")
                   (fst (set_electrode_group (g 3 "tetrode1") f))) in
  snd (get_electrode_group_idx (ByName "tetrode1") f') = Ok (Some 2) /\
  snd (get_electrode_group_idx (ByName "shank") f') = Ok (Some 2).
Proof.
  intros g f f'.
  destruct (reregistered_group_shares_index (g 3 "tetrode1") (g 4 "shank") 0 f)
    as (_ & _ & _ & H1 & H2); [reflexivity|reflexivity|].
  split; [exact H1|exact H2].
Defined.

Lemma get_electrode_group_run (s : string) (f : NWBFile) :
  get_electrode_group s f = (f, Ok (ec_electrodes f !! (inl s : pyname))).
Proof. reflexivity. Qed.

Lemma registered_electrodes (g : ElectrodeGroup) (f : NWBFile) :
  ec_electrodes (registered g f) = <[eg_name g := g]> (ec_electrodes f).
Proof. reflexivity. Qed.

Lemma registry_ok_step (L : list ElectrodeGroup) (g : ElectrodeGroup) (f : NWBFile) :
  registry_ok L f -> registry_ok (L ++ [g]) (registered g f).
Proof.
  intros (Hdom & Hname & Hsize & Hidx).
  assert (Hlen : length (L ++ [g]) = S (length L)) by (rewrite length_app; cbn; lia).
  assert (Hsz : size (<[eg_name g := size (ec_electrode_idx f)]> (ec_electrode_idx f))
                <= S (size (ec_electrode_idx f))).
  { rewrite map_size_insert. destruct (ec_electrode_idx f !! eg_name g); simpl; lia. }
  unfold registry_ok. rewrite NWBFacts.registered_idx, registered_electrodes, Hlen.
  repeat split.
  - intros H. destruct (decide (eg_name g = k)) as [<-|Hne].
    + rewrite lookup_insert_eq. eauto.
    + rewrite lookup_insert_ne by done. rewrite lookup_insert_ne in H by done.
      by apply Hdom.
  - intros H. destruct (decide (eg_name g = k)) as [<-|Hne].
    + rewrite lookup_insert_eq. eauto.
    + rewrite lookup_insert_ne by done. rewrite lookup_insert_ne in H by done.
      by apply Hdom.
  - destruct (decide (eg_name g = k)) as [<-|Hne].
    + rewrite lookup_insert_eq in H. by injection H as <-.
    + rewrite lookup_insert_ne in H by done. by apply (Hname k g0).
  - destruct (decide (eg_name g = k)) as [<-|Hne].
    + rewrite lookup_insert_eq in H. injection H as <-. apply elem_of_app. right. by left.
    + rewrite lookup_insert_ne in H by done. apply elem_of_app. left. by apply (Hname k g0).
  - lia.
  - intros k i H. destruct (decide (eg_name g = k)) as [<-|Hne].
    + rewrite lookup_insert_eq in H. injection H as <-. lia.
    + rewrite lookup_insert_ne in H by done. apply Hidx in H. lia.
Qed.

Lemma registry_ok_register_all (gs L : list ElectrodeGroup) (f : NWBFile) :
  registry_ok L f ->
  registry_ok (L ++ gs) (fst (register_all gs f)) /\
  is_ok (snd (register_all gs f)) = true.
Proof.
  revert L f. induction gs as [|g gs IH]; intros L f Hok.
  - by rewrite app_nil_r.
  - unfold register_all in *.
    rewrite NWBFacts.comprehension_cons, NWBFacts.set_electrode_group_run.
    destruct (IH (L ++ [g]) (registered g f) (registry_ok_step L g f Hok)) as [H1 H2].
    destruct (comprehension gs set_electrode_group (registered g f)) as [f2 [ys|e]];
      cbn [fst snd is_ok] in *; [|done].
    by rewrite <- app_assoc in H1.
Qed.

(** X6: whatever groups are registered on a new file, and in whatever order,
    with names repeated or not, registration returns normally, a name has
    a group exactly when it has an index, the group found under a name
    bears that name and is one of those registered, and every index is
    below the number of registrations. *)
Theorem registration_keeps_dictionaries_aligned
    (self : obj_id) (file_name description : string) (now : Z)
    (gs : list ElectrodeGroup) :
  let r := register_all gs (init self file_name description now) in
  is_ok (snd r) = true /\
  (forall s, snd (get_electrode_group s (fst r)) = Ok None <->
             snd (get_electrode_group_idx (ByName s) (fst r)) = Ok None) /\
  (forall s g, snd (get_electrode_group s (fst r)) = Ok (Some g) ->
               eg_name g = inl s /\ g ∈ gs) /\
  (forall a i, snd (get_electrode_group_idx a (fst r)) = Ok (Some i) -> i < length gs).
Proof.
  cbv zeta.
  destruct (registry_ok_register_all gs [] (init self file_name description now))
    as [(Hdom & Hname & _ & Hidx) Hok].
  { unfold registry_ok, init. cbn [ec_electrodes ec_electrode_idx].
    split; [|split; [|split]].
    - intros k. by rewrite !lookup_empty.
    - intros k g. by rewrite lookup_empty.
    - by rewrite map_size_empty.
    - intros k i. by rewrite lookup_empty. }
  cbn [app] in *. split; [exact Hok|].
  set (f := fst (register_all gs (init self file_name description now))) in *.
  split; [|split].
  - intros s. rewrite get_electrode_group_run, NWBFacts.get_electrode_group_idx_run.
    cbn [snd group_key]. specialize (Hdom (inl s)).
    split; intros H; injection H as H; f_equal; apply eq_None_not_Some; intros Hs;
      apply Hdom in Hs; rewrite H in Hs; by apply is_Some_None in Hs.
  - intros s g. rewrite get_electrode_group_run. cbn [snd]. intros H.
    apply (Hname (inl s) g). congruence.
  - intros a i. rewrite NWBFacts.get_electrode_group_idx_run. cbn [snd]. intros H.
    apply (Hidx (group_key a) i). congruence.
Qed.

(** X7: what is registered under a name stays as long as no later group
    bears that name: [get_electrode_group] returns the group, and
    [get_electrode_group_idx] the number of names the file had when it was
    registered. *)
Theorem last_registration_wins (g : ElectrodeGroup) (s : string)
    (later : list ElectrodeGroup) (f : NWBFile) :
  eg_name g = inl s ->
  inl s ∉ (eg_name <$> later) ->
  let r := register_all (g :: later) f in
  snd (get_electrode_group s (fst r)) = Ok (Some g) /\
  snd (get_electrode_group_idx (ByName s) (fst r)) = Ok (Some (size (ec_electrode_idx f))).
Proof.
  intros Hs Hlater. cbv zeta. unfold register_all.
  rewrite NWBFacts.comprehension_cons, NWBFacts.set_electrode_group_run.
  pose proof (NWBFacts.register_all_other later (registered g f) (inl s) Hlater) as Hidx.
  assert (Hel : ec_electrodes (fst (register_all later (registered g f))) !! (inl s : pyname)
                = ec_electrodes (registered g f) !! (inl s : pyname)).
  { clear Hidx. generalize (registered g f) as f0. clear Hs.
    induction later as [|g' later IH]; intros f0; [done|].
    rewrite fmap_cons in Hlater. apply not_elem_of_cons in Hlater as [Hne Hlater].
    unfold register_all in *.
    rewrite NWBFacts.comprehension_cons, NWBFacts.set_electrode_group_run.
    specialize (IH Hlater (registered g' f0)).
    destruct (comprehension later set_electrode_group (registered g' f0)) as [f2 [ys|e]];
      cbn [fst] in *; rewrite IH, registered_electrodes;
      by rewrite lookup_insert_ne. }
  unfold register_all in *.
  destruct (comprehension later set_electrode_group (registered g f)) as [f2 [ys|e]];
    cbn [fst snd] in *;
    rewrite get_electrode_group_run, NWBFacts.get_electrode_group_idx_run;
    cbn [snd group_key];
    rewrite Hel, Hidx, NWBFacts.registered_idx, registered_electrodes, <- Hs;
    by rewrite !lookup_insert_eq.
Qed.

Lemma last_registration_wins_example :
  let g (i : nat) (s : string) := mkElectrodeGroup i (inl s) [] "" "" "" (inl 0%Q) in
  let f := fst (register_all [g 1 "tetrode1"] fresh_file) in
  snd (get_electrode_group "tetrode1"
         (fst (register_all [g 2 "tetrode1"; g 3 "shank"] f))) = Ok (Some (g 2 "tetrode1")).
Proof.
  intros g f.
  refine (proj1 (last_registration_wins (g 2 "tetrode1") "tetrode1" [g 3 "shank"] f
                   eq_refl _)).
  apply (bool_decide_unpack _). vm_compute. exact I.
Defined.

Lemma create_epoch_then_get_epoch_example :
  let f := fst (create_epoch "ep1" 10 20 [] None fresh_file) in
  get_epoch (ERName "ep2") f = (f, Raise (KeyError "Epoch 'ep2' not found")).
Proof.
  intros f.
  refine (proj2 (proj2 (proj2 (proj2
            (create_epoch_then_get_epoch "ep1" 10 20 [] None fresh_file)))) "ep2" _).
  discriminate.
Defined.

Lemma registration_keeps_dictionaries_aligned_example :
  let g := mkElectrodeGroup 1 (inl "tetrode1") [] "" "" "" (inl 0%Q) in
  eg_name g = inl "tetrode1" /\ g ∈ [g].
Proof.
  intros g.
  refine (proj1 (proj2 (proj2
            (registration_keeps_dictionaries_aligned 0 "test.nwb" "test" 0 [g])))
            "tetrode1" g _).
  vm_compute. reflexivity.
Defined.

End NWBMore.

(** * Further properties of the HDF5 rendering (pynwb/io/write.py) *)

Module Hdf5More.

Import Hdf5.

(** ** Path resolution *)

(** X8: [get_container_location] returns only for a container that has a
    parent and whose ancestor just below the root of the ownership chain is
    an [NWBFile]; for a file that nothing owns, and for anything attached
    to such a file, it raises. *)
Theorem location_only_below_owned_file
    (rel : Container -> Container -> result string) (container : Container) :
  is_ok (get_container_location_via rel container) = true ->
  is_Some (c_parent container) /\
  isinstance (top_of container container) "NWBFile" = true.
Proof.
  intros Hok. split.
  - destruct container as [id mro name src file [parent|]]; [by eexists|].
    exfalso. unfold get_container_location_via in Hok. cbn in Hok.
    by destruct (mem "NWBFile" mro).
  - destruct (isinstance (top_of container container) "NWBFile") eqn:E; [done|].
    by rewrite (Hdf5Facts.location_needs_file_below_root rel container E) in Hok.
Qed.

Lemma location_only_below_owned_file_shelved :
  is_Some (c_parent (shelved "a.nwb" 6 "original")) /\
  isinstance (top_of (shelved "a.nwb" 6 "original") (shelved "a.nwb" 6 "original"))
    "NWBFile" = true.
Proof.
  apply (location_only_below_owned_file relative_location (shelved "a.nwb" 6 "original")).
  reflexivity.
Defined.

(** X9: as the module is, [get_container_location] returns for no
    container.  For a container that has a parent the loop raises
    [NameError]: its call [__relative_location(...)] stands in the class
    body and names the global [_Hdf5ContainerRenderer__relative_location],
    which nothing binds.  A container without a parent is refused when it
    is not an [NWBFile]; when it is one, the path is to be joined with
    [_posixpath], which nothing binds either. *)
Theorem get_container_location_never_returns
    (rel : Container -> Container -> result string) (container : Container) :
  is_ok (get_container_location_in write_globals rel container) = false /\
  (is_Some (c_parent container) ->
   get_container_location_in write_globals rel container
   = Raise (NameError "name '_Hdf5ContainerRenderer__relative_location' is not defined")) /\
  (c_parent container = None -> isinstance container "NWBFile" = false ->
   get_container_location_in write_globals rel container
   = Raise (Exception "highest container not a file: None (None) --> ... --> None (None)")).
Proof.
  destruct container as [id mro name src file [parent|]];
    unfold get_container_location_in, isinstance; cbn [climb c_parent c_mro rbind].
  - split; [reflexivity|]. split; [reflexivity|]. discriminate.
  - split; [|split].
    + by destruct (mem "NWBFile" mro).
    + by intros [? ?].
    + by intros _ ->.
Qed.

Lemma get_container_location_never_returns_shelved :
  get_container_location_in write_globals relative_location (shelved "a.nwb" 6 "original")
  = Raise (NameError "name '_Hdf5ContainerRenderer__relative_location' is not defined").
Proof.
  refine (proj1 (proj2 (get_container_location_never_returns relative_location
                          (shelved "a.nwb" 6 "original"))) _).
  by eexists.
Defined.

(** X10: the backend calls of [write] are, in this order: the opening of the
    file, creations of groups, datasets and attributes, creations of links,
    and, only when [write] returns normally, the closing of the file.  When
    rendering or a link fails the file is left open. *)
Theorem write_closes_only_on_success {C} (renderer_process : C -> result GroupBuilder)
    (container : C) (file_path : string) :
  exists structural link_ops,
    forallb is_structural_op structural = true /\
    forallb is_link_op link_ops = true /\
    fst (write renderer_process container file_path)
    = OpenFile file_path "w" :: structural ++ link_ops
      ++ (if is_ok (snd (write renderer_process container file_path))
          then [CloseFile] else []).
Proof.
  unfold write. destruct (renderer_process container) as [builder|e].
  - destruct (Hdf5Facts.write_groups_structural (groups builder) [OpenFile file_path "w"] [])
      as (s & Hs & Hall).
    destruct (write_groups (groups builder) [OpenFile file_path "w"] []) as [ops links_].
    cbn [fst] in Hs. subst ops.
    destruct (Hdf5Facts.write_links_only_links links_ ([OpenFile file_path "w"] ++ s))
      as (l & Hl & Hlall).
    exists s, l.
    destruct (write_links links_ ([OpenFile file_path "w"] ++ s)) as [ops [[]|e]];
      cbn [fst snd is_ok] in Hl |- *; subst ops.
    + split; [done|]. split; [done|]. by rewrite <- !app_assoc.
    + split; [done|]. split; [done|]. by rewrite app_nil_r.
  - exists [], []. by cbn.
Qed.

(** X11: as the module is, the link loop of [write] creates hard links
    only.  A soft or an external link raises [NameError], since write.py
    binds [_h5py] and the two branches say [h5py]: the loop returns
    normally only when every deferred link is hard, and a list that starts
    with a soft or an external link leaves the file as it was. *)
Theorem only_hard_links_created (resolves : string -> list backend_op -> bool)
    (ls : list (string * LinkBuilder)) (ops : list backend_op) :
  let r := write_links_in write_globals resolves ls ops in
  (exists new, fst r = ops ++ new /\ forallb is_hard_link_op new = true) /\
  (is_ok (snd r) = true -> forallb (fun l => is_hard (snd l)) ls = true) /\
  (forall name l after,
     ls = (name, l) :: after -> is_hard l = false ->
     r = (ops, Raise (NameError "name 'h5py' is not defined"))).
Proof.
  cbv zeta. split; [|split].
  - revert ops. induction ls as [|[name [[|] path|file_path path]] ls IH]; intros ops;
      cbn [write_links_in].
    + exists []. by rewrite app_nil_r.
    + destruct (resolves path ops).
      * destruct (IH (ops ++ [CreateHardLink name path])) as (new & Hnew & Hhard).
        exists (CreateHardLink name path :: new). rewrite Hnew, <- app_assoc.
        split; [done|]. cbn [forallb is_hard_link_op andb]. exact Hhard.
      * exists []. by rewrite app_nil_r.
    + exists []. by rewrite app_nil_r.
    + exists []. by rewrite app_nil_r.
  - revert ops. induction ls as [|[name [[|] path|file_path path]] ls IH]; intros ops;
      cbn [write_links_in]; try done.
    destruct (resolves path ops); [|done].
    intros Hok. cbn [forallb is_hard snd andb]. by apply (IH _ Hok).
  - intros name l after -> Hsoft.
    destruct l as [[|] path|file_path path]; [done| |]; reflexivity.
Qed.

Lemma only_hard_links_created_example :
  write_links_in write_globals path_exists
    [("acquisition/alias", InternalLinkBuilder false "acquisition/data")]
    [OpenFile "test.nwb" "w"; CreateGroup "acquisition"]
  = ([OpenFile "test.nwb" "w"; CreateGroup "acquisition"],
     Raise (NameError "name 'h5py' is not defined")).
Proof.
  refine (proj2 (proj2 (only_hard_links_created path_exists
                          [("acquisition/alias", InternalLinkBuilder false "acquisition/data")]
                          [OpenFile "test.nwb" "w"; CreateGroup "acquisition"]))
            "acquisition/alias" (InternalLinkBuilder false "acquisition/data") [] _ _);
    reflexivity.
Defined.

(** X12: a hard link whose target [f[path]] does not resolve when its turn
    comes raises [KeyError], whichever global names are bound: the links
    before it, which the loop has handled normally, stay created, and the
    links after it are not created. *)
Theorem dangling_hard_link_stops_links
    (names : list string) (resolves : string -> list backend_op -> bool)
    (before after : list (string * LinkBuilder)) (name path : string)
    (ops ops' : list backend_op) :
  write_links_in names resolves before ops = (ops', Ok tt) ->
  resolves path ops' = false ->
  write_links_in names resolves (before ++ (name, InternalLinkBuilder true path) :: after) ops
  = (ops', Raise (KeyError path)).
Proof.
  revert ops. induction before as [|[n [[|] p|fp p]] before IH]; intros ops Hbefore Hpath;
    cbn [app write_links_in] in *.
  - injection Hbefore as ->. by rewrite Hpath.
  - destruct (resolves p ops); [by apply IH|done].
  - destruct (global_name names "h5py"); [by apply IH|done].
  - destruct (global_name names "h5py"); [by apply IH|done].
Qed.

Lemma dangling_hard_link_stops_links_example :
  write_links_in write_globals path_exists
    [("acquisition/copy", InternalLinkBuilder true "acquisition");
     ("acquisition/alias", InternalLinkBuilder true "acquisition/data");
     ("acquisition/other", InternalLinkBuilder true "acquisition")]
    [OpenFile "test.nwb" "w"; CreateGroup "acquisition"]
  = ([OpenFile "test.nwb" "w"; CreateGroup "acquisition";
      CreateHardLink "acquisition/copy" "acquisition"],
     Raise (KeyError "acquisition/data")).
Proof.
  apply (dangling_hard_link_stops_links write_globals path_exists
           [("acquisition/copy", InternalLinkBuilder true "acquisition")]
           [("acquisition/other", InternalLinkBuilder true "acquisition")]
           "acquisition/alias" "acquisition/data"
           [OpenFile "test.nwb" "w"; CreateGroup "acquisition"]
           [OpenFile "test.nwb" "w"; CreateGroup "acquisition";
            CreateHardLink "acquisition/copy" "acquisition"]); reflexivity.
Defined.

End Hdf5More.


(** * The indexing pass of the file renderer *)

Module Hdf5File.

Import Hdf5.

(** ** The test for a precomputed record *)

(** X16: an entry of an epoch is left alone by the indexing pass exactly
    when its count and its start index are both truthy.  A record whose
    start index is 0, or whose count is 0, is therefore taken for a missing
    one, and the pass fails on it as it does on [None]. *)
Theorem record_with_zero_counts_as_missing
    (epoch_container : EpochContainer) (finders : Finders) (name : string)
    (entry_count entry_start : pyval) (ts : Container) :
  let entry := (name, mkEpochTimeSeries entry_count entry_start ts) in
  (truth entry_count && truth entry_start = true ->
   index_entry epoch_container finders entry = Ok finders) /\
  (truth entry_count && truth entry_start = false ->
   is_ok (index_entry epoch_container finders entry) = false) /\
  truth (PInt 0) = false /\ truth PNone = false /\ truth (PFloat 0) = false.
Proof.
  cbv zeta. split; [|split; [|done]].
  - intros H. unfold index_entry. cbn [snd ets_count ets_idx_start]. by rewrite H.
  - intros H. unfold index_entry. cbn [snd ets_count ets_idx_start ets_timeseries].
    rewrite H. cbn [negb]. by destruct (get_container_location ts).
Qed.

Lemma record_with_zero_counts_as_missing_example :
  is_ok (index_entry ep1 [] ("series1", mkEpochTimeSeries (PInt 5) (PInt 0) series1)) = false.
Proof.
  refine (proj1 (proj2
            (record_with_zero_counts_as_missing ep1 [] "series1" (PInt 5) (PInt 0) series1)) _).
  reflexivity.
Defined.

End Hdf5File.
